(** * Provider-registration replication (sync.py): model and properties

    A shallow embedding of [sync.py].  Python values are modelled as follows.

    - A [str] is the [string] of its code points, one character per code
      point: the development covers the texts whose code points are below
      256 (ASCII and Latin-1), and models the string methods on that whole
      range; [len] is [String.length].
    - [dict[str, bool]] ([Registrations]) is an association list in
      insertion order, the order in which Python iterates a dict; a list
      that stands for a dict has pairwise distinct keys ([Dict.wf]).
    - An exception is a value of [exn]; a computation that may raise
      returns a [result].
    - Console, standard input and the Azure SDK calls are threaded through
      a state-and-error monad [M] that records every effect in a trace. *)

From Stdlib Require Import List String Ascii Bool Arith ZArith Lia.
Import ListNotations.
Open Scope string_scope.

(** ** Exceptions and results *)

Inductive exn : Type :=
| NotImplementedError (msg : string)
| RuntimeError (msg : string)
| ValueError (msg : string)
| KeyError (key : string)
| IndexError (msg : string)
| EOFError
| EnumValueError (value enum_name : string)
    (* ValueError raised by an Enum lookup: "<repr value> is not a valid <enum_name>" *)
| SdkError (msg : string)
    (* any exception coming out of an Azure SDK call *).

Inductive exn_class : Type :=
| cNotImplementedError | cRuntimeError | cValueError | cKeyError
| cIndexError | cEOFError | cSdkError.

Definition class_of (e : exn) : exn_class :=
  match e with
  | NotImplementedError _ => cNotImplementedError
  | RuntimeError _ => cRuntimeError
  | ValueError _ => cValueError
  | KeyError _ => cKeyError
  | IndexError _ => cIndexError
  | EOFError => cEOFError
  | EnumValueError _ _ => cValueError
  | SdkError _ => cSdkError
  end.

Inductive result (A : Type) : Type :=
| Ok (a : A)
| Raise (e : exn).

Arguments Ok {A} a.
Arguments Raise {A} e.

Definition rbind {A B : Type} (r : result A) (k : A -> result B) : result B :=
  match r with
  | Ok a => k a
  | Raise e => Raise e
  end.

Declare Scope result_scope.
Delimit Scope result_scope with result.
Notation "'let?' x ':=' r 'in' k" := (rbind r (fun x => k))
  (at level 10, x name, r at level 100, k at level 200) : result_scope.

(** ** Python dicts with string keys *)

Module Dict.

Definition t (V : Type) : Type := list (string * V).

Definition empty {V : Type} : t V := [].

(** [d.get(k)] *)
Fixpoint get {V : Type} (d : t V) (k : string) : option V :=
  match d with
  | [] => None
  | (k', v) :: rest => if String.eqb k k' then Some v else get rest k
  end.

(** [k in d] *)
Definition contains {V : Type} (d : t V) (k : string) : bool :=
  match get d k with Some _ => true | None => false end.

(** [d[k]], which raises [KeyError] on a missing key *)
Definition getitem {V : Type} (d : t V) (k : string) : result V :=
  match get d k with Some v => Ok v | None => Raise (KeyError k) end.

(** [d[k] = v]: an existing key keeps its position, a new key goes last *)
Fixpoint setitem {V : Type} (d : t V) (k : string) (v : V) : t V :=
  match d with
  | [] => [(k, v)]
  | (k', v') :: rest =>
      if String.eqb k k' then (k', v) :: rest else (k', v') :: setitem rest k v
  end.

(** [d.items()] *)
Definition items {V : Type} (d : t V) : list (string * V) := d.

(** [[k for k in d]] *)
Definition keys {V : Type} (d : t V) : list string := map fst d.

(** [not d] is true exactly for the empty dict *)
Definition is_empty {V : Type} (d : t V) : bool :=
  match d with [] => true | _ :: _ => false end.

(** [d.update(other)] *)
Definition update {V : Type} (d other : t V) : t V :=
  fold_left (fun acc kv => setitem acc (fst kv) (snd kv)) (items other) d.

(** The lists that stand for a dict: no key occurs twice. *)
Definition wf {V : Type} (d : t V) : Prop := NoDup (keys d).

End Dict.

Definition Registrations : Type := Dict.t bool.

(** ** ReplicationStrategy (a StrEnum) *)

Inductive ReplicationStrategy : Type := ECHO | SYNC.

(** The member's string value.  A StrEnum member is itself a [str] and
    compares equal to its value, so a strategy argument is modelled by the
    string it carries. *)
Definition value (s : ReplicationStrategy) : string :=
  match s with
  | ECHO => "echo"
  | SYNC => "sync"
  end.

Definition DEFAULT_REPLICATION_STRATEGY : ReplicationStrategy := ECHO.

(** [ReplicationStrategy(name)]: lookup of a member by value. *)
Definition ReplicationStrategy_of (name : string) : result ReplicationStrategy :=
  if String.eqb name (value ECHO) then Ok ECHO
  else if String.eqb name (value SYNC) then Ok SYNC
  else Raise (EnumValueError name "ReplicationStrategy").

(** ** generate_registration_delta *)

(** [for provider, enabled in d.items(): delta = body provider enabled delta] *)
Fixpoint for_items (its : list (string * bool))
    (body : string -> bool -> Registrations -> result Registrations)
    (delta : Registrations) : result Registrations :=
  match its with
  | [] => Ok delta
  | (provider, enabled) :: rest =>
      rbind (body provider enabled delta) (for_items rest body)
  end.

Section Evaluator.

Variables source_registrations destination_registrations : Registrations.

Definition echo_body (provider : string) (enabled : bool)
    (registration_delta : Registrations) : result Registrations :=
  if enabled then
    if Dict.contains destination_registrations provider then
      (let? d := Dict.getitem destination_registrations provider in
       if negb d then Ok (Dict.setitem registration_delta provider true)
       else Ok registration_delta)%result
    else Ok registration_delta
  else Ok registration_delta.

Definition sync_body (provider : string) (enabled : bool)
    (registration_delta : Registrations) : result Registrations :=
  if Dict.contains destination_registrations provider then
    (let? s := Dict.getitem source_registrations provider in
     let? d := Dict.getitem destination_registrations provider in
     if negb (Bool.eqb s d) then Ok (Dict.setitem registration_delta provider enabled)
     else Ok registration_delta)%result
  else Ok registration_delta.

Definition generate_registration_delta (strategy : string)
    : result Registrations :=
  let registration_delta := Dict.empty in
  if String.eqb strategy (value ECHO) then
    for_items (Dict.items source_registrations) echo_body registration_delta
  else if String.eqb strategy (value SYNC) then
    for_items (Dict.items source_registrations) sync_body registration_delta
  else
    Raise (NotImplementedError
             ("Unrecognized replication strategy " ++ strategy ++ "!")).

End Evaluator.

(** The snapshots of scenarios A and B of the specification. *)

Definition scenario_S : Registrations :=
  [("Microsoft.Compute", true); ("Microsoft.Storage", false); ("Microsoft.Cdn", true)].

Definition scenario_D : Registrations :=
  [("Microsoft.Compute", false); ("Microsoft.Storage", false)].

(** ** String methods *)

(** [c.lower()] for a code point below 256: the letters A to Z and the
    Latin-1 capitals (192 to 222 without the multiplication sign, 215)
    move up by 32; every other character is its own lower case. *)
Definition ascii_lower (c : ascii) : ascii :=
  let n := nat_of_ascii c in
  if (((65 <=? n) && (n <=? 90))
      || ((192 <=? n) && (n <=? 222) && negb (n =? 215)))%nat
  then ascii_of_nat (n + 32) else c.

(** [s.lower()] *)
Fixpoint str_lower (s : string) : string :=
  match s with
  | EmptyString => EmptyString
  | String c r => String (ascii_lower c) (str_lower r)
  end.

(** [c.isspace()] for a code point below 256: TAB, LF, VT, FF, CR, the
    separators FS, GS, RS, US, the space, NEL (133) and the no-break
    space (160). *)
Definition is_space (c : ascii) : bool :=
  let n := nat_of_ascii c in
  (((9 <=? n) && (n <=? 13)) || ((28 <=? n) && (n <=? 31)) || (n =? 32)
   || (n =? 133) || (n =? 160))%nat.

Fixpoint lstrip_by (p : ascii -> bool) (s : string) : string :=
  match s with
  | EmptyString => EmptyString
  | String c r => if p c then lstrip_by p r else s
  end.

Fixpoint rstrip_by (p : ascii -> bool) (s : string) : string :=
  match s with
  | EmptyString => EmptyString
  | String c r =>
      match rstrip_by p r with
      | EmptyString => if p c then EmptyString else String c EmptyString
      | r' => String c r'
      end
  end.

Definition strip_by (p : ascii -> bool) (s : string) : string :=
  rstrip_by p (lstrip_by p s).

(** [s.strip()] *)
Definition str_strip (s : string) : string := strip_by is_space s.

Fixpoint mem_char (c : ascii) (chars : string) : bool :=
  match chars with
  | EmptyString => false
  | String c' r => Ascii.eqb c c' || mem_char c r
  end.

(** [s.strip(chars)] *)
Definition str_strip_chars (chars s : string) : string :=
  strip_by (fun c => mem_char c chars) s.

(** [s.replace(old, new)] for a non-empty [old]: occurrences are replaced
    from left to right without overlap; [skip] counts the characters of a
    matched occurrence that are still to be passed over. *)
Fixpoint replace_from (old new : string) (skip : nat) (s : string) : string :=
  match s with
  | EmptyString => EmptyString
  | String c r =>
      match skip with
      | S n => replace_from old new n r
      | O =>
          if String.prefix old s
          then new ++ replace_from old new (String.length old - 1) r
          else String c (replace_from old new O r)
      end
  end.

Definition str_replace (old new s : string) : string := replace_from old new 0 s.

(** [' ' * n] *)
Fixpoint spaces (n : nat) : string :=
  match n with
  | O => EmptyString
  | S m => String " "%char (spaces m)
  end.

(** [s.ljust(width)] *)
Definition str_ljust (s : string) (width : nat) : string :=
  s ++ spaces (width - String.length s).

(** ** The standard library's [int(text, 16)] and [uuid.UUID(hex=..., version=...)]

    [UUID] and [int] belong to the Python standard library, not to the
    repository; they are transcribed from CPython 3.11 ([Lib/uuid.py],
    [PyLong_FromString], [PyLong_FromUnicodeObject]) for texts whose code
    points are below 256. *)

(** Whitespace skipped by the integer parser: TAB, LF, VT, FF, CR and the
    space, and the two whitespace characters above 127, NEL (133) and the
    no-break space (160), which [int] turns into spaces before it parses.
    No character above 127 and below 256 is a decimal digit. *)
Definition is_c_space (c : ascii) : bool :=
  let n := nat_of_ascii c in
  (((9 <=? n) && (n <=? 13)) || (n =? 32) || (n =? 133) || (n =? 160))%nat.

Definition hex_digit (c : ascii) : option Z :=
  let n := nat_of_ascii c in
  if ((48 <=? n) && (n <=? 57))%nat then Some (Z.of_nat (n - 48))
  else if ((97 <=? n) && (n <=? 102))%nat then Some (Z.of_nat (n - 87))
  else if ((65 <=? n) && (n <=? 70))%nat then Some (Z.of_nat (n - 55))
  else None.

(** The digit loop: digits may be separated by single underscores; it
    stops at the first character that is neither, and fails on a doubled
    or trailing underscore.  Returns the value, the number of digits read
    and the unread rest. *)
Fixpoint hex_digits (s : string) (prev_underscore : bool) (acc : Z) (ndigits : nat)
    : option (Z * nat * string) :=
  match s with
  | EmptyString => if prev_underscore then None else Some (acc, ndigits, s)
  | String c r =>
      if Ascii.eqb c "_"%char then
        if prev_underscore then None else hex_digits r true acc ndigits
      else
        match hex_digit c with
        | Some d => hex_digits r false (16 * acc + d)%Z (S ndigits)
        | None => if prev_underscore then None else Some (acc, ndigits, s)
        end
  end.

Definition invalid_literal (text : string) : exn :=
  ValueError ("invalid literal for int() with base 16: " ++ text).

(** [int(text, 16)]: leading whitespace, an optional sign, an optional
    [0x] or [0X] prefix which one underscore may follow, the digits, and
    trailing whitespace up to the end of the text. *)
Definition int_base16 (text : string) : result Z :=
  let s := lstrip_by is_c_space text in
  let negative :=
    match s with
    | String c _ => Ascii.eqb c "-"%char
    | EmptyString => false
    end in
  let s :=
    match s with
    | String c r => if Ascii.eqb c "+"%char || Ascii.eqb c "-"%char then r else s
    | EmptyString => s
    end in
  let s :=
    match s with
    | String c (String x r) =>
        if Ascii.eqb c "0"%char && (Ascii.eqb x "x"%char || Ascii.eqb x "X"%char) then
          match r with
          | String u r' => if Ascii.eqb u "_"%char then r' else r
          | EmptyString => r
          end
        else s
    | _ => s
    end in
  let leading_underscore :=
    match s with
    | String c _ => Ascii.eqb c "_"%char
    | EmptyString => false
    end in
  if leading_underscore then Raise (invalid_literal text)
  else
    match hex_digits s false 0%Z 0 with
    | Some (v, S _, rest) =>
        match lstrip_by is_c_space rest with
        | EmptyString => Ok (if negative then (- v)%Z else v)
        | _ => Raise (invalid_literal text)
        end
    | _ => Raise (invalid_literal text)
    end.

(** [UUID(hex=hex, version=version)]; the result is the object's [int]
    field.  The version argument is not compared with the version digit of
    [hex]: it overwrites the variant and version bits. *)
Definition UUID (hex : string) (version : Z) : result Z :=
  let hex := str_replace "uuid:" "" (str_replace "urn:" "" hex) in
  let hex := str_replace "-" "" (str_strip_chars "{}" hex) in
  if negb (String.length hex =? 32)%nat then
    Raise (ValueError "badly formed hexadecimal UUID string")
  else
    (let? int := int_base16 hex in
     if negb ((0 <=? int) && (int <? Z.shiftl 1 128))%Z then
       Raise (ValueError "int is out of range (need a 128-bit value)")
     else if negb ((1 <=? version) && (version <=? 5))%Z then
       Raise (ValueError "illegal version number")
     else
       let int := Z.land int (Z.lnot (Z.shiftl 0xc000 48)) in
       let int := Z.lor int (Z.shiftl 0x8000 48) in
       let int := Z.land int (Z.lnot (Z.shiftl 0xf000 64)) in
       let int := Z.lor int (Z.shiftl version 76) in
       Ok int)%result.

(** ** subscription_id_valid *)

Definition subscription_id_valid (subscription_id : string) : bool :=
  match UUID subscription_id 4 with
  | Ok _ => true
  | Raise _ => false
  end.

(** ** The Azure collaborators, the console and the effect monad *)

Record Subscription : Type := {
  subscription_id : string;
  display_name : string
}.

Record Provider : Type := {
  namespace : string;
  registration_state : string
}.

(** Everything the program does to the outside world, in order. *)
Inductive event : Type :=
| SubscriptionsGet (id : string)
| ProvidersList (id : string)
| ProvidersRegister (id ns : string)
| ProvidersUnregister (id ns : string)
| Print (line : string)
| Input (prompt : string).

(** The answers of the Azure API.  An answer may depend on everything that
    happened before the call, which is passed as the history. *)
Record Azure : Type := {
  subscriptions_get : list event -> string -> result Subscription;
  providers_list : list event -> string -> result (list Provider);
  providers_register : list event -> string -> string -> result unit;
  providers_unregister : list event -> string -> string -> result unit
}.

Record World : Type := {
  stdin : list string;   (* the lines still to be read *)
  trace : list event     (* the effects so far, oldest first *)
}.

Definition M (A : Type) : Type := World -> result A * World.

Definition ret {A : Type} (a : A) : M A := fun w => (Ok a, w).

Definition raise {A : Type} (e : exn) : M A := fun w => (Raise e, w).

Definition bind {A B : Type} (m : M A) (k : A -> M B) : M B :=
  fun w =>
    match m w with
    | (Ok a, w') => k a w'
    | (Raise e, w') => (Raise e, w')
    end.

Declare Scope m_scope.
Delimit Scope m_scope with M.
Notation "x <- m ;; k" := (bind m (fun x => k))
  (at level 61, m at next level, right associativity) : m_scope.
Notation "m ;; k" := (bind m (fun _ => k))
  (at level 61, right associativity) : m_scope.

Definition lift {A : Type} (r : result A) : M A := fun w => (r, w).

Definition emit (e : event) : M unit :=
  fun w => (Ok tt, {| stdin := stdin w; trace := (trace w ++ [e])%list |}).

(** An SDK call: the event is recorded, then the API answers. *)
Definition call {A : Type} (e : event) (answer : list event -> result A) : M A :=
  fun w => (answer (trace w), {| stdin := stdin w; trace := (trace w ++ [e])%list |}).

(** [print(line)] *)
Definition print (line : string) : M unit := emit (Print line).

(** [input(prompt)]: one line of standard input, [EOFError] when there is none. *)
Definition input (prompt : string) : M string :=
  fun w =>
    let tr := (trace w ++ [Input prompt])%list in
    match stdin w with
    | [] => (Raise EOFError, {| stdin := []; trace := tr |})
    | line :: rest => (Ok line, {| stdin := rest; trace := tr |})
    end.

Fixpoint for_each {A : Type} (l : list A) (body : A -> M unit) : M unit :=
  match l with
  | [] => ret tt
  | x :: rest => (body x ;; for_each rest body)%M
  end.

Definition is_call (e : event) : bool :=
  match e with
  | ProvidersRegister _ _ | ProvidersUnregister _ _ => true
  | _ => false
  end.

(** ** delta_report *)

(** [sorted(l, key=len, reverse=True)]: a stable sort, longest first. *)
Fixpoint insert_by_len (x : string) (l : list string) : list string :=
  match l with
  | [] => [x]
  | y :: rest =>
      if (String.length y <=? String.length x)%nat then x :: l
      else y :: insert_by_len x rest
  end.

Definition sorted_by_len_desc (l : list string) : list string :=
  fold_right insert_by_len [] l.

(** [l[0]] *)
Definition index0 {A : Type} (l : list A) : result A :=
  match l with
  | [] => Raise (IndexError "list index out of range")
  | x :: _ => Ok x
  end.

Definition namespace_width (registration_delta : Registrations) : result nat :=
  (let? longest := index0 (sorted_by_len_desc (Dict.keys registration_delta)) in
   Ok (String.length longest + 5))%result.

Definition report_line (width : nat) (kv : string * bool) : string :=
  str_ljust (fst kv) width ++ " => " ++ (if snd kv then "Register" else "Unregister").

Definition delta_report (registration_delta : Registrations) : M unit :=
  (width <- lift (namespace_width registration_delta) ;;
   for_each (Dict.items registration_delta)
     (fun kv => print (report_line width kv)))%M.

(** ** The orchestrator *)

Section Orchestrator.

Variable azure : Azure.

Definition get_subscription (id : string) : M Subscription :=
  call (SubscriptionsGet id) (fun h => subscriptions_get azure h id).

Definition get_subscription_registrations (subscription : Subscription)
    : M Registrations :=
  (all_providers <- call (ProvidersList (subscription_id subscription))
                      (fun h => providers_list azure h (subscription_id subscription)) ;;
   ret (fold_left
          (fun d p => Dict.setitem d (namespace p)
                        (String.eqb (registration_state p) "Registered"))
          all_providers Dict.empty))%M.

Definition set_subscription_registration (subscription : Subscription)
    (ns : string) (v : bool) : M unit :=
  let id := subscription_id subscription in
  if v then
    (call (ProvidersRegister id ns) (fun h => providers_register azure h id ns) ;;
     print ("Registering " ++ ns ++ " in " ++ id
            ++ " (" ++ display_name subscription ++ ")"))%M
  else
    (call (ProvidersUnregister id ns) (fun h => providers_unregister azure h id ns) ;;
     print ("Unregistering " ++ ns ++ " in " ++ id
            ++ " (" ++ display_name subscription ++ ")"))%M.

Definition apply_delta (target_subscription : Subscription)
    (registrations : Registrations) : M unit :=
  for_each (Dict.items registrations)
    (fun kv => set_subscription_registration target_subscription (fst kv) (snd kv)).

Definition replicate_registrations (source destination : Subscription)
    (strategy : string) : M unit :=
  (source_registrations <- get_subscription_registrations source ;;
   destination_registrations <- get_subscription_registrations destination ;;
   delta <- lift (generate_registration_delta source_registrations
                    destination_registrations strategy) ;;
   if Dict.is_empty delta then
     print "No delta found between subscriptions."
   else
     print ("The following changes will be made to subscription "
            ++ subscription_id destination
            ++ " (" ++ display_name destination ++ "):") ;;
     delta_report delta ;;
     confirm <- input "Enter 'yes' to proceed: " ;;
     if negb (String.eqb (str_strip (str_lower confirm)) "yes") then
       print "Aborting!"
     else
       apply_delta destination delta ;;
       print "Provider registration edits complete. Providers may take minutes or longer to register, monitor progress through the Azure console.")%M.

Definition main (source_subscription_id destination_subscription_id : string)
    (strategy_name : option string) : M unit :=
  if String.eqb source_subscription_id destination_subscription_id then
    raise (RuntimeError "Subscription ID for source and destination must not match!")
  else if negb (subscription_id_valid source_subscription_id) then
    raise (RuntimeError "Source subscription ID doesn't appear to be a valid UUID.")
  else if negb (subscription_id_valid destination_subscription_id) then
    raise (RuntimeError "Destination subscription ID doesn't appear to be a valid UUID.")
  else
    (strategy <- lift match strategy_name with
                      | None => Ok DEFAULT_REPLICATION_STRATEGY
                      | Some name => ReplicationStrategy_of name
                      end ;;
     source_subscription <- get_subscription source_subscription_id ;;
     destination_subscription <- get_subscription destination_subscription_id ;;
     replicate_registrations source_subscription destination_subscription
       (value strategy))%M.

End Orchestrator.

(** ** The identifier format the documentation asks for

    [subscription_id_valid] is documented to return [True] "if a valid UUID4
    is passed, False otherwise".  [is_uuid4_formatted] is that format as RFC
    4122 writes it: 8-4-4-4-12 hexadecimal digits separated by hyphens, the
    version digit being 4 and the variant digit one of 8, 9, a, b. *)

Definition is_hex (c : ascii) : bool :=
  match hex_digit c with Some _ => true | None => false end.

Definition uuid4_char_ok (i : nat) (c : ascii) : bool :=
  if ((i =? 8) || (i =? 13) || (i =? 18) || (i =? 23))%nat then Ascii.eqb c "-"%char
  else if (i =? 14)%nat then Ascii.eqb c "4"%char
  else if (i =? 19)%nat then mem_char c "89abAB"
  else is_hex c.

Fixpoint uuid4_chars_ok (i : nat) (s : string) : bool :=
  match s with
  | EmptyString => true
  | String c r => uuid4_char_ok i c && uuid4_chars_ok (S i) r
  end.

Definition is_uuid4_formatted (s : string) : bool :=
  (String.length s =? 36)%nat && uuid4_chars_ok 0 s.

(** ** Auxiliary definitions used by the statements below *)

(** The condition under which the ECHO loop stores an item, and the one
    under which the SYNC loop does. *)
Definition echo_cond (D : Registrations) (p : string) (e : bool) : bool :=
  e && match Dict.get D p with Some false => true | _ => false end.

Definition sync_cond (D : Registrations) (p : string) (e : bool) : bool :=
  match Dict.get D p with Some d => negb (Bool.eqb e d) | None => false end.

(** The world [w] once the events [evs] have happened. *)
Definition after (w : World) (evs : list event) : World :=
  {| stdin := stdin w; trace := (trace w ++ evs)%list |}.

(** The world [w] once one line of standard input has been read. *)
Definition consumed (w : World) : World :=
  {| stdin := tl (stdin w); trace := trace w |}.

(** The length of the longest namespace of a delta. *)
Definition longest_key (d : Registrations) : nat :=
  list_max (map String.length (Dict.keys d)).

(** The length of the first string of a list, 0 for the empty list. *)
Definition head_length (l : list string) : nat :=
  match l with
  | [] => 0
  | x :: _ => String.length x
  end.

(** The lines [delta_report] prints for a delta. *)
Definition report_events (d : Registrations) : list event :=
  map (fun kv => Print (report_line (longest_key d + 5) kv)) (Dict.items d).

Definition confirm_prompt : string := "Enter 'yes' to proceed: ".

Definition changes_header (destination : Subscription) : string :=
  "The following changes will be made to subscription "
  ++ subscription_id destination ++ " (" ++ display_name destination ++ "):".

(** A sample run: two subscriptions whose provider lists give the
    snapshots of scenario A, and an API that always succeeds. *)
Definition sample_source : Subscription :=
  {| subscription_id := "9f1c2d3e-4b5a-4c6d-8e7f-0123456789ab";
     display_name := "source" |}.

Definition sample_destination : Subscription :=
  {| subscription_id := "0a1b2c3d-4e5f-4a6b-9c7d-ba9876543210";
     display_name := "destination" |}.

Definition sample_azure : Azure :=
  {| subscriptions_get := fun _ id =>
       if String.eqb id (subscription_id sample_source) then Ok sample_source
       else if String.eqb id (subscription_id sample_destination)
            then Ok sample_destination
            else Raise (SdkError "SubscriptionNotFound");
     providers_list := fun _ id =>
       if String.eqb id (subscription_id sample_source) then
         Ok [ {| namespace := "Microsoft.Compute"; registration_state := "Registered" |};
              {| namespace := "Microsoft.Storage"; registration_state := "NotRegistered" |};
              {| namespace := "Microsoft.Cdn"; registration_state := "Registered" |} ]
       else
         Ok [ {| namespace := "Microsoft.Compute"; registration_state := "NotRegistered" |};
              {| namespace := "Microsoft.Storage"; registration_state := "NotRegistered" |} ];
     providers_register := fun _ _ _ => Ok tt;
     providers_unregister := fun _ _ _ => Ok tt |}.

Definition sample_world (lines : list string) : World :=
  {| stdin := lines; trace := [] |}.

(** An identifier in the RFC 4122 layout whose version digit is 1. *)
Definition version1_id : string := "00000000-0000-1000-8000-000000000000".

(** [all_chars p s]: every character of [s] satisfies [p]. *)
Fixpoint all_chars (p : ascii -> bool) (s : string) : bool :=
  match s with
  | EmptyString => true
  | String c r => p c && all_chars p r
  end.

(** The number of characters of [s] that satisfy [p]. *)
Fixpoint count_chars (p : ascii -> bool) (s : string) : nat :=
  match s with
  | EmptyString => 0
  | String c r => (if p c then 1 else 0) + count_chars p r
  end.

Definition hex_or_hyphen (c : ascii) : bool := is_hex c || Ascii.eqb c "-"%char.

(** ** Auxiliary definitions for the further properties *)

(** [p.registration_state == "Registered"] *)
Definition is_registered (p : Provider) : bool :=
  String.eqb (registration_state p) "Registered".

(** The last provider of a listing that carries the namespace [ns]. *)
Definition last_listed (ns : string) (ps : list Provider) : option Provider :=
  find (fun p => String.eqb (namespace p) ns) (rev ps).

(** The SDK call that applies one entry of a delta, the API's answer to
    it after the history [h], and the line printed once it has returned. *)
Definition call_event (sub : Subscription) (kv : string * bool) : event :=
  if snd kv then ProvidersRegister (subscription_id sub) (fst kv)
  else ProvidersUnregister (subscription_id sub) (fst kv).

Definition call_answer (azure : Azure) (h : list event) (sub : Subscription)
    (kv : string * bool) : result unit :=
  if snd kv then providers_register azure h (subscription_id sub) (fst kv)
  else providers_unregister azure h (subscription_id sub) (fst kv).

Definition call_line (sub : Subscription) (kv : string * bool) : event :=
  Print ((if snd kv then "Registering " else "Unregistering ")
         ++ fst kv ++ " in " ++ subscription_id sub
         ++ " (" ++ display_name sub ++ ")").

(** The effects of applying a whole delta when every call succeeds. *)
Definition apply_events (sub : Subscription) (d : Registrations) : list event :=
  flat_map (fun kv => [call_event sub kv; call_line sub kv]) d.

(** The effects of a run up to and including the prompt. *)
Definition shown_events (source destination : Subscription) (delta : Registrations)
    : list event :=
  ([ProvidersList (subscription_id source);
    ProvidersList (subscription_id destination);
    Print (changes_header destination)]
   ++ report_events delta ++ [Input confirm_prompt])%list.

Definition complete_line : string :=
  "Provider registration edits complete. Providers may take minutes or longer to register, monitor progress through the Azure console.".

(** [m] only adds events to the trace, and each of them satisfies [P]. *)
Definition emits {A : Type} (P : event -> bool) (m : M A) : Prop :=
  forall w, exists evs,
    trace (snd (m w)) = (trace w ++ evs)%list /\ forallb P evs = true.

(** The event is no register or unregister call on a subscription other
    than [id]. *)
Definition targets (id : string) (e : event) : bool :=
  match e with
  | ProvidersRegister id' _ | ProvidersUnregister id' _ => String.eqb id' id
  | _ => true
  end.

(** The operator's answer is an acceptance. *)
Definition accepted (line : string) : bool :=
  String.eqb (str_strip (str_lower line)) "yes".

(** The next line of standard input, if any, is an acceptance. *)
Definition next_line_accepted (w : World) : bool :=
  match stdin w with
  | [] => false
  | line :: _ => accepted line
  end.

(** An API on which the destination lists the three namespaces of the
    source with the opposite states, and unregistering "Microsoft.Storage"
    is refused. *)
Definition refusing_azure : Azure :=
  {| subscriptions_get := subscriptions_get sample_azure;
     providers_list := fun h id =>
       if String.eqb id (subscription_id sample_source)
       then providers_list sample_azure h id
       else
         Ok [ {| namespace := "Microsoft.Compute"; registration_state := "NotRegistered" |};
              {| namespace := "Microsoft.Storage"; registration_state := "Registered" |};
              {| namespace := "Microsoft.Cdn"; registration_state := "Registering" |} ];
     providers_register := fun _ _ _ => Ok tt;
     providers_unregister := fun _ _ ns =>
       if String.eqb ns "Microsoft.Storage"
       then Raise (SdkError "AuthorizationFailed")
       else Ok tt |}.

(** An API on which no subscription can be listed. *)
Definition unreachable_azure : Azure :=
  {| subscriptions_get := subscriptions_get sample_azure;
     providers_list := fun _ _ => Raise (SdkError "ServiceUnavailable");
     providers_register := fun _ _ _ => Ok tt;
     providers_unregister := fun _ _ _ => Ok tt |}.

(** An API on which only the source subscription can be listed. *)
Definition half_reachable_azure : Azure :=
  {| subscriptions_get := subscriptions_get sample_azure;
     providers_list := fun h id =>
       if String.eqb id (subscription_id sample_source)
       then providers_list sample_azure h id
       else Raise (SdkError "AuthorizationFailed");
     providers_register := fun _ _ _ => Ok tt;
     providers_unregister := fun _ _ _ => Ok tt |}.

(** ** The command line

    The text of [usage], line by line. *)

Definition nl : string := String (ascii_of_nat 10) EmptyString.

Definition dq : string := String (ascii_of_nat 34) EmptyString.

Definition usage_text : string :=
  "" ++ nl ++
  "sync.py" ++ nl ++
  "    Performs updates of Azure Subscriptions' registered providers based on an existing subscription's configuration." ++ nl ++
  "          " ++ nl ++
  "Usage:" ++ nl ++
  "    sync.py <source_subscription_id> <destination_subscription_id> [strategy]" ++ nl ++
  "          " ++ nl ++
  "Arguments:" ++ nl ++
  "    source_subscription_id          " ++ nl ++
  "        ID of a subscription that your user has access to. This subscription will be used to " ++ nl ++
  "        determine what changes to make on the destination subscription." ++ nl ++
  "    destination_subscription_id" ++ nl ++
  "        ID of a subscription that your user has access to. This subscription will be updated " ++ nl ++
  "        based on the provider registrations on the source subscription." ++ nl ++
  "    strategy (optional, default: " ++ dq ++ "echo" ++ dq ++ ")" ++ nl ++
  "        Either " ++ dq ++ "echo" ++ dq ++ " or " ++ dq ++ "sync" ++ dq ++ " depending on how you wish the destination subscription to be updated." ++ nl ++
  "          " ++ nl ++
  "Strategies:" ++ nl ++
  "    There are two strategies that can be utilized to update the destination. The default strategy is " ++ nl ++
  "    " ++ dq ++ "echo" ++ dq ++ " as it results in the smallest, safest changeset." ++ nl ++
  "          " ++ nl ++
  "    echo" ++ nl ++
  "        Registrations that are active on the source subscription will be activated on the destination " ++ nl ++
  "        subscription. Registrations that are inactive on the source are not marked inactive on the " ++ nl ++
  "        destination, only new registrations will be made." ++ nl ++
  "    sync" ++ nl ++
  "        The state of registrations on the source subscription are replicated exactly to the destination. " ++ nl ++
  "        This option does replicate unregistered providers between subscriptions, so if a provider is " ++ nl ++
  "        active in the destination but inactive in the source, when the " ++ dq ++ "sync" ++ dq ++ " strategy is chosen," ++ nl ++
  "        the provider will be unregistered from the destination." ++ nl ++
  "".

(** [repr(s)] for code points below 256: single quotes, unless the text
    holds a single quote and no double quote; the quote and the backslash
    are escaped, TAB, LF and CR are written with their letters, and the
    characters that are not printable (below 32, 127 to 160, and the soft
    hyphen 173) as [\xNN]; every other character stands for itself. *)
Definition hex_char (n : nat) : ascii :=
  ascii_of_nat (if (n <? 10)%nat then 48 + n else 87 + n).

Definition repr_char (quote c : ascii) : string :=
  let n := nat_of_ascii c in
  if Ascii.eqb c quote || Ascii.eqb c "\"%char then String "\"%char (String c EmptyString)
  else if (n =? 9)%nat then "\t"
  else if (n =? 10)%nat then "\n"
  else if (n =? 13)%nat then "\r"
  else if ((n <? 32) || ((126 <? n) && (n <? 161)) || (n =? 173))%nat then
    String "\"%char (String "x"%char
      (String (hex_char (n / 16)) (String (hex_char (n mod 16)) EmptyString)))
  else String c EmptyString.

Fixpoint repr_chars (quote : ascii) (s : string) : string :=
  match s with
  | EmptyString => EmptyString
  | String c r => repr_char quote c ++ repr_chars quote r
  end.

Definition str_repr (s : string) : string :=
  let quote :=
    if mem_char "'"%char s && negb (mem_char (ascii_of_nat 34) s)
    then ascii_of_nat 34 else "'"%char in
  String quote (repr_chars quote s) ++ String quote EmptyString.

(** [str(e)] *)
Definition exn_str (e : exn) : string :=
  match e with
  | NotImplementedError msg => msg
  | RuntimeError msg => msg
  | ValueError msg => msg
  | KeyError key => str_repr key
  | IndexError msg => msg
  | EOFError => "EOF when reading a line"
  | EnumValueError v enum_name => str_repr v ++ " is not a valid " ++ enum_name
  | SdkError msg => msg
  end.

(** How the script ends: it runs to its last line, or it calls [exit]. *)
Inductive outcome : Type :=
| Finished
| Exited (code : Z).

(** The [__main__] block: [argv] is [sys.argv], the program's name first.
    [except Exception] catches every class of [exn]; an exception that is
    no [Exception], such as an interrupt from the keyboard, is not part
    of the model. *)
Definition script (azure : Azure) (argv : list string) : World -> outcome * World :=
  fun w =>
    let run source_subscription_id destination_subscription_id strategy :=
      match main azure source_subscription_id destination_subscription_id strategy w with
      | (Ok _, w') => (Finished, w')
      | (Raise e, w') => (Exited (-2), after w' [Print ("Failure: " ++ exn_str e)])
      end in
    match argv with
    | [_; a; b] => run a b None
    | [_; a; b; c] => run a b (Some c)
    | _ => (Exited (-1), after w [Print usage_text])
    end.

(** The no-break space (code point 160) and the next-line control (133),
    two whitespace characters outside ASCII. *)
Definition nbsp : string := String (ascii_of_nat 160) EmptyString.

Definition nel : string := String (ascii_of_nat 133) EmptyString.

(** * Properties *)

(** ** Dict lemmas *)

Module DictFacts.
Import Dict.

Section WithValues.
Context {V : Type}.
Implicit Types (d : Dict.t V) (k : string) (v : V).

Lemma get_setitem_eq d k v : get (setitem d k v) k = Some v.
Proof.
  induction d as [|[k' v'] rest IH]; simpl.
  - now rewrite String.eqb_refl.
  - destruct (String.eqb k k') eqn:E; simpl; rewrite E; auto.
Qed.

Lemma get_setitem_neq d k k' v : k <> k' -> get (setitem d k v) k' = get d k'.
Proof.
  intros Hne. induction d as [|[k0 v0] rest IH]; simpl.
  - destruct (String.eqb k' k) eqn:E; auto.
    apply String.eqb_eq in E. congruence.
  - destruct (String.eqb k k0) eqn:E; simpl.
    + apply String.eqb_eq in E. subst k0.
      destruct (String.eqb k' k) eqn:E'; auto.
      apply String.eqb_eq in E'. congruence.
    + now rewrite IH.
Qed.

Lemma get_In d k v : get d k = Some v -> In (k, v) d.
Proof.
  induction d as [|[k' v'] rest IH]; simpl; [discriminate|].
  destruct (String.eqb k k') eqn:E.
  - apply String.eqb_eq in E. intros [= ->]. subst. now left.
  - intros H. right. auto.
Qed.

Lemma In_keys d k v : In (k, v) d -> In k (keys d).
Proof. intros H. apply (in_map fst) in H. exact H. Qed.

Lemma In_get d k v : wf d -> In (k, v) d -> get d k = Some v.
Proof.
  unfold wf. induction d as [|[k' v'] rest IH]; simpl; [tauto|].
  intros Hnd [Heq | Hin].
  - injection Heq as -> ->. now rewrite String.eqb_refl.
  - inversion Hnd as [|? ? Hnotin Hnd']; subst.
    destruct (String.eqb k k') eqn:E.
    + apply String.eqb_eq in E. subst k'.
      exfalso. apply Hnotin. eapply In_keys; eauto.
    + auto.
Qed.

Lemma In_get_some d k v : In (k, v) d -> exists v', get d k = Some v'.
Proof.
  induction d as [|[k' v'] rest IH]; simpl; [tauto|].
  intros [Heq | Hin]; destruct (String.eqb k k') eqn:E; eauto.
  injection Heq as -> ->. rewrite String.eqb_refl in E. discriminate.
Qed.

Lemma get_None_keys d k : get d k = None -> ~ In k (keys d).
Proof.
  induction d as [|[k' v'] rest IH]; simpl; [tauto|].
  destruct (String.eqb k k') eqn:E; [discriminate|].
  apply String.eqb_neq in E. intros H [Heq | Hin]; [congruence | now apply IH].
Qed.

Lemma notin_keys_get d k : ~ In k (keys d) -> get d k = None.
Proof.
  intros H. destruct (get d k) eqn:E; auto.
  exfalso. apply H. eapply In_keys, get_In; eauto.
Qed.

Lemma keys_setitem d k v :
  keys (setitem d k v) = if contains d k then keys d else (keys d ++ [k])%list.
Proof.
  unfold contains. induction d as [|[k' v'] rest IH]; simpl; auto.
  destruct (String.eqb k k') eqn:E; simpl.
  - apply String.eqb_eq in E. now subst.
  - rewrite IH. destruct (get rest k); reflexivity.
Qed.

Lemma wf_setitem d k v : wf d -> wf (setitem d k v).
Proof.
  unfold wf. intros Hd. rewrite keys_setitem. unfold contains.
  destruct (get d k) eqn:E; auto.
  apply get_None_keys in E.
  apply NoDup_app; auto.
  - constructor; [simpl; tauto | constructor].
  - intros x Hx [<- | []]. auto.
Qed.

Lemma wf_empty : wf (@empty V).
Proof. constructor. Qed.

(** A dict in which no key can be found has no entry. *)
Lemma get_all_None d : (forall k, get d k = None) -> d = [].
Proof.
  destruct d as [|[k v] rest]; auto.
  intros H. specialize (H k). simpl in H.
  rewrite String.eqb_refl in H. discriminate.
Qed.

Lemma get_update d other k :
  wf other ->
  get (update d other) k
  = match get other k with Some v => Some v | None => get d k end.
Proof.
  unfold update, items, wf. revert d.
  induction other as [|[k' v'] rest IH]; intros d Hnd; simpl; auto.
  inversion Hnd as [|? ? Hnotin Hnd']; subst.
  rewrite IH by assumption.
  destruct (String.eqb k k') eqn:E.
  - apply String.eqb_eq in E. subst k'.
    rewrite (notin_keys_get _ _ Hnotin). apply get_setitem_eq.
  - apply String.eqb_neq in E.
    rewrite get_setitem_neq by congruence. reflexivity.
Qed.

End WithValues.
End DictFacts.

(** ** The loop of the evaluator *)

Section LoopFacts.
Import Dict DictFacts.

Lemma for_items_app its1 its2 body acc :
  for_items (its1 ++ its2)%list body acc
  = rbind (for_items its1 body acc) (for_items its2 body).
Proof.
  revert acc. induction its1 as [|[p e] rest IH]; intros acc; simpl; auto.
  destruct (body p e acc); simpl; auto.
Qed.

(** A loop whose body stores the item's own value under the item's key
    whenever a condition [c] on the item holds.  The items are those of a
    dict: a key has one value. *)
Lemma for_items_spec (c : string -> bool -> bool) body its acc :
  (forall p e d, In (p, e) its ->
                 body p e d = Ok (if c p e then setitem d p e else d)) ->
  (forall p e e', In (p, e) its -> In (p, e') its -> e = e') ->
  exists delta,
    for_items its body acc = Ok delta
    /\ (wf acc -> wf delta)
    /\ forall ns v,
         get delta ns = Some v <->
         (In (ns, v) its /\ c ns v = true)
         \/ (get acc ns = Some v /\ forall e, In (ns, e) its -> c ns e = false).
Proof.
  induction its as [|[p e] its0 IH] using rev_ind; intros Hbody Hfun.
  - exists acc. split; [reflexivity|]. split; [auto|].
    intros ns v. split.
    + intros H. right. split; [exact H | intros ? []].
    + intros [[[] _] | [H _]]. exact H.
  - destruct IH as (delta0 & Hrun & Hwf & Hspec).
    { intros. apply Hbody. apply in_or_app. now left. }
    { intros q x y Hx Hy. apply (Hfun q); apply in_or_app; now left. }
    assert (Hlast : In (p, e) (its0 ++ [(p, e)])%list)
      by (apply in_or_app; right; now left).
    assert (Hsame : forall x, In (p, x) (its0 ++ [(p, e)])%list -> x = e)
      by (intros x Hx; apply (Hfun p); assumption).
    exists (if c p e then setitem delta0 p e else delta0).
    split; [|split].
    + rewrite for_items_app, Hrun. simpl.
      rewrite (Hbody p e delta0 Hlast). reflexivity.
    + intros Hacc. destruct (c p e); auto using wf_setitem.
    + intros ns v. destruct (String.eqb ns p) eqn:Ens.
      * apply String.eqb_eq in Ens. subst ns.
        destruct (c p e) eqn:Ec.
        -- rewrite get_setitem_eq. split.
           ++ intros [= <-]. left. split; assumption.
           ++ intros [[Hin _] | [_ Hno]].
              ** now rewrite (Hsame v Hin).
              ** rewrite (Hno e Hlast) in Ec. discriminate.
        -- rewrite Hspec. split.
           ++ intros [[Hin Hc] | [Ha _]].
              ** assert (v = e) by (apply Hsame, in_or_app; now left).
                 subst v. congruence.
              ** right. split; [exact Ha|].
                 intros x Hx. now rewrite (Hsame x Hx).
           ++ intros [[Hin Hc] | [Ha Hno]].
              ** rewrite (Hsame v Hin) in Hc. congruence.
              ** right. split; [exact Ha|].
                 intros x Hx. apply Hno, in_or_app. now left.
      * apply String.eqb_neq in Ens.
        assert (Hget : get (if c p e then setitem delta0 p e else delta0) ns
                       = get delta0 ns).
        { destruct (c p e); auto. apply get_setitem_neq. congruence. }
        assert (Hin : forall x, In (ns, x) (its0 ++ [(p, e)])%list <-> In (ns, x) its0).
        { intros x. rewrite in_app_iff. simpl. split; [|tauto].
          intros [H | [H | []]]; [exact H | congruence]. }
        rewrite Hget, Hspec, Hin. split.
        -- intros [H | [Ha Hno]]; [now left | right; split; [exact Ha|]].
           intros x Hx. apply Hno, Hin, Hx.
        -- intros [H | [Ha Hno]]; [now left | right; split; [exact Ha|]].
           intros x Hx. apply Hno, Hin, Hx.
Qed.

(** A loop whose body never raises on the items runs to completion. *)
Lemma for_items_total body its acc :
  (forall p e d, In (p, e) its -> exists d', body p e d = Ok d') ->
  exists delta, for_items its body acc = Ok delta.
Proof.
  revert acc. induction its as [|[p e] rest IH]; intros acc Hbody; simpl.
  - eauto.
  - destruct (Hbody p e acc) as [d' ->]; [now left|]. simpl.
    apply IH. intros. apply Hbody. now right.
Qed.

Variables S D : Registrations.

Lemma echo_body_eq p e d :
  echo_body D p e d = Ok (if echo_cond D p e then setitem d p e else d).
Proof.
  unfold echo_body, echo_cond, contains, getitem.
  destruct e; destruct (get D p) as [[|]|]; reflexivity.
Qed.

Lemma sync_body_eq p e d :
  get S p = Some e ->
  sync_body S D p e d = Ok (if sync_cond D p e then setitem d p e else d).
Proof.
  intros HS. unfold sync_body, sync_cond, contains, getitem. rewrite HS.
  destruct (get D p) as [x|]; simpl; [|reflexivity].
  destruct (Bool.eqb e x); reflexivity.
Qed.

Lemma wf_functional (x : string) (a b : bool) :
  wf S -> In (x, a) S -> In (x, b) S -> a = b.
Proof.
  intros HS Ha Hb.
  apply (In_get _ _ _ HS) in Ha. apply (In_get _ _ _ HS) in Hb. congruence.
Qed.

(** What the evaluator returns under ECHO. *)
Lemma echo_spec :
  wf S ->
  exists delta,
    generate_registration_delta S D (value ECHO) = Ok delta
    /\ wf delta
    /\ forall ns v,
         get delta ns = Some v <->
         v = true /\ get S ns = Some true /\ get D ns = Some false.
Proof.
  intros HS.
  destruct (for_items_spec (echo_cond D) (echo_body D) S empty)
    as (delta & Hrun & Hwf & Hspec).
  { intros. apply echo_body_eq. }
  { intros p a b. apply wf_functional, HS. }
  exists delta. split; [exact Hrun|]. split; [apply Hwf, wf_empty|].
  intros ns v. rewrite Hspec. unfold echo_cond. split.
  - intros [[Hin Hc] | [Hemp _]]; [|discriminate].
    apply andb_true_iff in Hc. destruct Hc as [-> Hd].
    split; [reflexivity|]. split; [apply (In_get _ _ _ HS Hin)|].
    destruct (get D ns) as [[|]|]; congruence.
  - intros (-> & Hs & Hd). left. split; [apply get_In, Hs|].
    rewrite Hd. reflexivity.
Qed.

(** What the evaluator returns under SYNC. *)
Lemma sync_spec :
  wf S ->
  exists delta,
    generate_registration_delta S D (value SYNC) = Ok delta
    /\ wf delta
    /\ forall ns v,
         get delta ns = Some v <->
         get S ns = Some v /\ exists d, get D ns = Some d /\ v <> d.
Proof.
  intros HS.
  destruct (for_items_spec (sync_cond D) (sync_body S D) S empty)
    as (delta & Hrun & Hwf & Hspec).
  { intros p e d Hin. apply sync_body_eq, (In_get _ _ _ HS Hin). }
  { intros p a b. apply wf_functional, HS. }
  exists delta. split; [exact Hrun|]. split; [apply Hwf, wf_empty|].
  intros ns v. rewrite Hspec. unfold sync_cond. split.
  - intros [[Hin Hc] | [Hemp _]]; [|discriminate].
    split; [apply (In_get _ _ _ HS Hin)|].
    destruct (get D ns) as [d|]; [|discriminate].
    exists d. split; [reflexivity|]. destruct v, d; simpl in Hc; congruence.
  - intros (Hs & d & Hd & Hne). left. split; [apply get_In, Hs|].
    rewrite Hd. destruct v, d; simpl; congruence.
Qed.

End LoopFacts.

(** ** The strategy evaluator *)

Example scenario_A :
  generate_registration_delta scenario_S scenario_D (value ECHO)
  = Ok [("Microsoft.Compute", true)].
Proof. reflexivity. Qed.

Example scenario_B :
  generate_registration_delta scenario_S scenario_D (value SYNC)
  = Ok [("Microsoft.Compute", true)].
Proof. reflexivity. Qed.

Example scenario_C :
  generate_registration_delta [("X", false)] [("X", true)] (value ECHO) = Ok []
  /\ generate_registration_delta [("X", false)] [("X", true)] (value SYNC)
     = Ok [("X", false)].
Proof. split; reflexivity. Qed.

Lemma scenario_S_wf : Dict.wf scenario_S.
Proof.
  unfold Dict.wf, scenario_S. simpl.
  repeat constructor; simpl; intuition discriminate.
Qed.

(** C1: under ECHO the evaluator returns a delta whose entries are exactly
    the namespaces present in both snapshots that are [true] in the source
    and [false] in the destination, each mapped to [true]; nothing else is
    in the delta. *)
Theorem echo_delta_exact (S D : Registrations) :
  Dict.wf S ->
  exists delta,
    generate_registration_delta S D (value ECHO) = Ok delta
    /\ Dict.wf delta
    /\ forall ns v,
         Dict.get delta ns = Some v <->
         v = true /\ Dict.get S ns = Some true /\ Dict.get D ns = Some false.
Proof. apply echo_spec. Qed.

Lemma echo_delta_exact_witness :
  Dict.wf scenario_S
  /\ exists delta,
       generate_registration_delta scenario_S scenario_D (value ECHO) = Ok delta
       /\ Dict.wf delta
       /\ forall ns v,
            Dict.get delta ns = Some v <->
            v = true /\ Dict.get scenario_S ns = Some true
            /\ Dict.get scenario_D ns = Some false.
Proof.
  split; [exact scenario_S_wf | apply (echo_delta_exact scenario_S scenario_D)].
  exact scenario_S_wf.
Defined.

(** C2: under SYNC the keys of the returned delta are exactly the
    namespaces present in both snapshots whose values differ, and every
    entry carries the source's value. *)
Theorem sync_delta_exact (S D : Registrations) :
  Dict.wf S ->
  exists delta,
    generate_registration_delta S D (value SYNC) = Ok delta
    /\ Dict.wf delta
    /\ (forall ns,
          Dict.contains delta ns = true <->
          exists s d, Dict.get S ns = Some s /\ Dict.get D ns = Some d /\ s <> d)
    /\ (forall ns v, Dict.get delta ns = Some v -> Dict.get S ns = Some v).
Proof.
  intros HS. destruct (sync_spec S D HS) as (delta & Hrun & Hwf & Hspec).
  exists delta. repeat split; auto.
  - unfold Dict.contains. destruct (Dict.get delta ns) as [v|] eqn:E; [|discriminate].
    intros _. apply Hspec in E. destruct E as (Hs & d & Hd & Hne). eauto.
  - intros (s & d & Hs & Hd & Hne). unfold Dict.contains.
    assert (H : Dict.get delta ns = Some s) by (apply Hspec; eauto).
    now rewrite H.
  - intros ns v H. now apply Hspec in H.
Qed.

Lemma sync_delta_exact_witness :
  Dict.wf scenario_S
  /\ exists delta,
       generate_registration_delta scenario_S scenario_D (value SYNC) = Ok delta
       /\ Dict.wf delta
       /\ (forall ns,
             Dict.contains delta ns = true <->
             exists s d, Dict.get scenario_S ns = Some s
                         /\ Dict.get scenario_D ns = Some d /\ s <> d)
       /\ (forall ns v, Dict.get delta ns = Some v -> Dict.get scenario_S ns = Some v).
Proof.
  split; [exact scenario_S_wf | apply (sync_delta_exact scenario_S scenario_D)].
  exact scenario_S_wf.
Defined.

(** C3: whatever the strategy, the delta never holds a namespace whose
    desired value is the value the destination already has, and under ECHO
    every value of the delta is [true]. *)
Theorem delta_never_noop (S D : Registrations) (strategy : ReplicationStrategy)
    (delta : Registrations) (ns : string) (v : bool) :
  Dict.wf S ->
  generate_registration_delta S D (value strategy) = Ok delta ->
  Dict.get delta ns = Some v ->
  Dict.get D ns <> Some v /\ (strategy = ECHO -> v = true).
Proof.
  intros HS Hrun Hget. destruct strategy.
  - destruct (echo_spec S D HS) as (delta' & Hrun' & _ & Hspec).
    rewrite Hrun in Hrun'. injection Hrun' as <-.
    apply Hspec in Hget. destruct Hget as (-> & _ & Hd).
    split; [rewrite Hd; discriminate | reflexivity].
  - destruct (sync_spec S D HS) as (delta' & Hrun' & _ & Hspec).
    rewrite Hrun in Hrun'. injection Hrun' as <-.
    apply Hspec in Hget. destruct Hget as (_ & d & Hd & Hne).
    split; [rewrite Hd; congruence | discriminate].
Qed.

Lemma delta_never_noop_witness :
  Dict.get scenario_D "Microsoft.Compute" <> Some true /\ (ECHO = ECHO -> true = true).
Proof.
  apply (delta_never_noop scenario_S scenario_D ECHO
           [("Microsoft.Compute", true)] "Microsoft.Compute" true).
  - exact scenario_S_wf.
  - reflexivity.
  - reflexivity.
Defined.

(** C4: once the destination has been updated with the delta, evaluating
    the same strategy again yields the empty delta. *)
Theorem delta_idempotent (S D : Registrations) (strategy : ReplicationStrategy)
    (delta : Registrations) :
  Dict.wf S ->
  generate_registration_delta S D (value strategy) = Ok delta ->
  generate_registration_delta S (Dict.update D delta) (value strategy) = Ok [].
Proof.
  intros HS Hrun. destruct strategy.
  - destruct (echo_spec S D HS) as (delta0 & Hrun0 & Hwf & Hspec).
    rewrite Hrun in Hrun0. injection Hrun0 as <-.
    destruct (echo_spec S (Dict.update D delta) HS) as (delta1 & Hrun1 & _ & Hspec1).
    rewrite Hrun1. f_equal. apply DictFacts.get_all_None. intros ns.
    destruct (Dict.get delta1 ns) as [v|] eqn:E; [exfalso | reflexivity].
    apply Hspec1 in E. destruct E as (-> & Hs & Hd).
    rewrite DictFacts.get_update in Hd by exact Hwf.
    destruct (Dict.get delta ns) as [x|] eqn:Ex.
    + apply Hspec in Ex. destruct Ex as (-> & _). discriminate.
    + assert (H : Dict.get delta ns = Some true) by (apply Hspec; auto).
      congruence.
  - destruct (sync_spec S D HS) as (delta0 & Hrun0 & Hwf & Hspec).
    rewrite Hrun in Hrun0. injection Hrun0 as <-.
    destruct (sync_spec S (Dict.update D delta) HS) as (delta1 & Hrun1 & _ & Hspec1).
    rewrite Hrun1. f_equal. apply DictFacts.get_all_None. intros ns.
    destruct (Dict.get delta1 ns) as [v|] eqn:E; [exfalso | reflexivity].
    apply Hspec1 in E. destruct E as (Hs & d & Hd & Hne).
    rewrite DictFacts.get_update in Hd by exact Hwf.
    destruct (Dict.get delta ns) as [x|] eqn:Ex.
    + apply Hspec in Ex. destruct Ex as (Hs' & _). congruence.
    + assert (H : Dict.get delta ns = Some v) by (apply Hspec; eauto).
      congruence.
Qed.

Lemma delta_idempotent_witness :
  generate_registration_delta scenario_S
    (Dict.update scenario_D [("Microsoft.Compute", true)]) (value SYNC) = Ok [].
Proof.
  apply (delta_idempotent scenario_S scenario_D SYNC [("Microsoft.Compute", true)]).
  - exact scenario_S_wf.
  - reflexivity.
Defined.

(** C10: for a strategy that is a member of the enumeration the evaluator
    never raises: it returns a delta for every pair of snapshots, so the
    unsupported-strategy branch (like any other raise) is not reached. *)
Theorem generate_registration_delta_total (S D : Registrations)
    (strategy : ReplicationStrategy) :
  (exists delta, generate_registration_delta S D (value strategy) = Ok delta)
  /\ forall e, generate_registration_delta S D (value strategy) <> Raise e.
Proof.
  assert (H : exists delta,
             generate_registration_delta S D (value strategy) = Ok delta).
  { destruct strategy; unfold generate_registration_delta; simpl;
      apply for_items_total; intros p e d Hin.
    - rewrite echo_body_eq. eauto.
    - unfold Dict.items in Hin.
      destruct (DictFacts.In_get_some _ _ _ Hin) as [s Hs].
      unfold sync_body, Dict.contains, Dict.getitem. rewrite Hs.
      destruct (Dict.get D p) as [x|]; simpl; [|eauto].
      destruct (negb (Bool.eqb s x)); eauto. }
  split; [exact H|]. destruct H as [delta ->]. discriminate.
Qed.

(** ** The reporter *)

Section ReporterFacts.

Lemma after_nil w : after w [] = w.
Proof. destruct w. unfold after. simpl. now rewrite app_nil_r. Qed.

Lemma after_after w evs1 evs2 : after (after w evs1) evs2 = after w (evs1 ++ evs2).
Proof. unfold after. simpl. now rewrite app_assoc. Qed.

Lemma print_run line w : print line w = (Ok tt, after w [Print line]).
Proof. reflexivity. Qed.

Lemma for_each_print {A : Type} (f : A -> string) (l : list A) w :
  for_each l (fun x => print (f x)) w
  = (Ok tt, after w (map (fun x => Print (f x)) l)).
Proof.
  revert w. induction l as [|x rest IH]; intros w; simpl.
  - unfold ret. now rewrite after_nil.
  - unfold bind. rewrite print_run, IH, after_after. reflexivity.
Qed.

Lemma head_length_insert x l :
  head_length (insert_by_len x l) = Nat.max (String.length x) (head_length l).
Proof.
  destruct l as [|y rest]; simpl.
  - now rewrite Nat.max_0_r.
  - destruct (Nat.leb_spec (String.length y) (String.length x)); simpl; lia.
Qed.

Lemma head_length_sorted l :
  head_length (sorted_by_len_desc l) = list_max (map String.length l).
Proof.
  induction l as [|x rest IH]; simpl; auto.
  now rewrite head_length_insert, IH.
Qed.

Lemma insert_by_len_cons x l : exists y rest, insert_by_len x l = y :: rest.
Proof.
  destruct l as [|z rest]; simpl; eauto.
  destruct (String.length z <=? String.length x)%nat; eauto.
Qed.

Lemma namespace_width_nonempty kv rest :
  namespace_width (kv :: rest) = Ok (longest_key (kv :: rest) + 5).
Proof.
  unfold namespace_width, longest_key.
  rewrite <- head_length_sorted.
  destruct (insert_by_len_cons (fst kv) (sorted_by_len_desc (Dict.keys rest)))
    as (y & r & Hy).
  change (sorted_by_len_desc (Dict.keys (kv :: rest)))
    with (insert_by_len (fst kv) (sorted_by_len_desc (Dict.keys rest))).
  rewrite Hy. reflexivity.
Qed.

Lemma delta_report_nonempty kv rest w :
  delta_report (kv :: rest) w = (Ok tt, after w (report_events (kv :: rest))).
Proof.
  unfold delta_report, bind, lift. rewrite namespace_width_nonempty.
  apply (for_each_print (report_line (longest_key (kv :: rest) + 5))).
Qed.

End ReporterFacts.

(** C9: [delta_report] needs a non-empty delta.  On the empty delta it
    raises [IndexError] (index 0 of the empty sorted key list) and prints
    nothing; on a non-empty delta it succeeds and prints one line per
    entry, in the order of the delta, the namespace left-justified to the
    length of the longest key plus 5. *)
Theorem delta_report_needs_entries :
  (forall w, delta_report [] w = (Raise (IndexError "list index out of range"), w))
  /\ (forall kv rest w,
        let delta := kv :: rest in
        delta_report delta w
        = (Ok tt,
           after w (map (fun e : string * bool =>
                           Print (str_ljust (fst e) (longest_key delta + 5)
                                  ++ " => "
                                  ++ (if snd e then "Register" else "Unregister")))
                        delta))).
Proof.
  split.
  - reflexivity.
  - intros kv rest w delta. unfold delta. apply delta_report_nonempty.
Qed.

(** ** The orchestrator *)

Section OrchestratorFacts.

Variable azure : Azure.

Lemma fetch_world sub w r w' :
  get_subscription_registrations azure sub w = (r, w') ->
  w' = after w [ProvidersList (subscription_id sub)].
Proof.
  unfold get_subscription_registrations, bind, call, ret.
  destruct (providers_list azure (trace w) (subscription_id sub));
    intros [= _ <-]; reflexivity.
Qed.

Lemma report_events_no_call delta : existsb is_call (report_events delta) = false.
Proof.
  unfold report_events. induction (Dict.items delta); simpl; auto.
Qed.

Lemma input_run prompt w line rest :
  stdin w = line :: rest ->
  input prompt w = (Ok line, consumed (after w [Input prompt])).
Proof. unfold input, consumed, after. intros ->. reflexivity. Qed.

Variables source destination : Subscription.
Variable strategy : string.
Variables (w w1 w2 : World) (S D delta : Registrations).

Hypothesis fetch_source :
  get_subscription_registrations azure source w = (Ok S, w1).
Hypothesis fetch_destination :
  get_subscription_registrations azure destination w1 = (Ok D, w2).
Hypothesis evaluate :
  generate_registration_delta S D strategy = Ok delta.

Lemma fetched_world :
  w2 = after w [ProvidersList (subscription_id source);
                ProvidersList (subscription_id destination)].
Proof.
  rewrite (fetch_world _ _ _ _ fetch_destination), (fetch_world _ _ _ _ fetch_source).
  apply after_after.
Qed.

Lemma replicate_after_evaluate :
  replicate_registrations azure source destination strategy w
  = (if Dict.is_empty delta then
       print "No delta found between subscriptions."
     else
       print (changes_header destination) ;;
       delta_report delta ;;
       confirm <- input confirm_prompt ;;
       if negb (String.eqb (str_strip (str_lower confirm)) "yes") then
         print "Aborting!"
       else
         apply_delta azure destination delta ;;
         print "Provider registration edits complete. Providers may take minutes or longer to register, monitor progress through the Azure console.")%M
      w2.
Proof.
  unfold replicate_registrations, bind at 1.
  rewrite fetch_source.
  unfold bind at 1. rewrite fetch_destination.
  unfold bind at 1, lift. rewrite evaluate. reflexivity.
Qed.

End OrchestratorFacts.

(** C8: when the evaluated delta is empty the run ends successfully after
    the single line "No delta found between subscriptions.": the effects of
    the whole run are the two provider listings and that line, so no
    report is printed, nothing is read from standard input and no
    register or unregister call is made. *)
Theorem empty_delta_stops (azure : Azure) (source destination : Subscription)
    (strategy : string) (w w1 w2 : World) (S D delta : Registrations) :
  get_subscription_registrations azure source w = (Ok S, w1) ->
  get_subscription_registrations azure destination w1 = (Ok D, w2) ->
  generate_registration_delta S D strategy = Ok delta ->
  Dict.is_empty delta = true ->
  replicate_registrations azure source destination strategy w
  = (Ok tt,
     after w [ProvidersList (subscription_id source);
              ProvidersList (subscription_id destination);
              Print "No delta found between subscriptions."]).
Proof.
  intros Hs Hd He Hempty.
  rewrite (replicate_after_evaluate _ _ _ _ _ _ _ _ _ _ Hs Hd He), Hempty.
  rewrite print_run, (fetched_world _ _ _ _ _ _ _ _ Hs Hd), after_after.
  reflexivity.
Qed.

Lemma empty_delta_stops_witness :
  replicate_registrations sample_azure sample_destination sample_source
    (value ECHO) (sample_world ["yes"])
  = (Ok tt,
     after (sample_world ["yes"])
       [ProvidersList (subscription_id sample_destination);
        ProvidersList (subscription_id sample_source);
        Print "No delta found between subscriptions."]).
Proof.
  apply (empty_delta_stops sample_azure sample_destination sample_source
           (value ECHO) (sample_world ["yes"])
           (after (sample_world ["yes"])
              [ProvidersList (subscription_id sample_destination)])
           (after (sample_world ["yes"])
              [ProvidersList (subscription_id sample_destination);
               ProvidersList (subscription_id sample_source)])
           scenario_D scenario_S []);
    reflexivity.
Defined.

(** C7: after the report the orchestrator reads one line.  The apply step
    runs exactly when that line, lower-cased and stripped of surrounding
    whitespace, is "yes"; on any other line, the empty one included, the
    run ends successfully after printing "Aborting!" and no register or
    unregister call has been made. *)
Theorem confirmation_decides_apply (azure : Azure) (source destination : Subscription)
    (strategy : string) (w w1 w2 : World) (S D delta : Registrations)
    (line : string) (rest : list string) :
  get_subscription_registrations azure source w = (Ok S, w1) ->
  get_subscription_registrations azure destination w1 = (Ok D, w2) ->
  generate_registration_delta S D strategy = Ok delta ->
  Dict.is_empty delta = false ->
  stdin w = line :: rest ->
  let shown :=
    ([ProvidersList (subscription_id source);
      ProvidersList (subscription_id destination);
      Print (changes_header destination)]
     ++ report_events delta ++ [Input confirm_prompt])%list in
  (str_strip (str_lower line) = "yes" ->
   replicate_registrations azure source destination strategy w
   = (apply_delta azure destination delta ;;
      print "Provider registration edits complete. Providers may take minutes or longer to register, monitor progress through the Azure console.")%M
       (consumed (after w shown)))
  /\ (str_strip (str_lower line) <> "yes" ->
      replicate_registrations azure source destination strategy w
      = (Ok tt, consumed (after w (shown ++ [Print "Aborting!"])))
      /\ existsb is_call (shown ++ [Print "Aborting!"]) = false).
Proof.
  intros Hs Hd He Hne Hin shown.
  assert (Hrun :
    replicate_registrations azure source destination strategy w
    = (if negb (String.eqb (str_strip (str_lower line)) "yes") then
         print "Aborting!"
       else
         apply_delta azure destination delta ;;
         print "Provider registration edits complete. Providers may take minutes or longer to register, monitor progress through the Azure console.")%M
        (consumed (after w shown))).
  { rewrite (replicate_after_evaluate _ _ _ _ _ _ _ _ _ _ Hs Hd He), Hne.
    rewrite (fetched_world _ _ _ _ _ _ _ _ Hs Hd).
    destruct delta as [|kv more]; [discriminate|].
    unfold bind at 1. rewrite print_run.
    unfold bind at 1. rewrite delta_report_nonempty.
    unfold bind at 1.
    rewrite (input_run confirm_prompt _ line rest) by exact Hin.
    rewrite !after_after. reflexivity. }
  rewrite Hrun. split.
  - intros Hyes. rewrite Hyes. reflexivity.
  - intros Hno. apply String.eqb_neq in Hno. rewrite Hno.
    change (negb false) with true. cbv iota.
    split.
    + rewrite print_run. unfold consumed, after. simpl.
      now rewrite <- app_assoc.
    + unfold shown. rewrite !existsb_app, report_events_no_call. reflexivity.
Qed.

Lemma confirmation_decides_apply_witness :
  (replicate_registrations sample_azure sample_source sample_destination
     (value ECHO) (sample_world ["  YES "])
   = (apply_delta sample_azure sample_destination [("Microsoft.Compute", true)] ;;
      print "Provider registration edits complete. Providers may take minutes or longer to register, monitor progress through the Azure console.")%M
       (consumed (after (sample_world ["  YES "])
          ([ProvidersList (subscription_id sample_source);
            ProvidersList (subscription_id sample_destination);
            Print (changes_header sample_destination)]
           ++ report_events [("Microsoft.Compute", true)]
           ++ [Input confirm_prompt])%list)))
  /\ (replicate_registrations sample_azure sample_source sample_destination
        (value ECHO) (sample_world [""])
      = (Ok tt,
         consumed (after (sample_world [""])
           (([ProvidersList (subscription_id sample_source);
              ProvidersList (subscription_id sample_destination);
              Print (changes_header sample_destination)]
             ++ report_events [("Microsoft.Compute", true)]
             ++ [Input confirm_prompt]) ++ [Print "Aborting!"])%list))
      /\ existsb is_call
           (([ProvidersList (subscription_id sample_source);
              ProvidersList (subscription_id sample_destination);
              Print (changes_header sample_destination)]
             ++ report_events [("Microsoft.Compute", true)]
             ++ [Input confirm_prompt]) ++ [Print "Aborting!"])%list = false).
Proof.
  split.
  - apply (confirmation_decides_apply sample_azure sample_source sample_destination
             (value ECHO) (sample_world ["  YES "])
             (after (sample_world ["  YES "])
                [ProvidersList (subscription_id sample_source)])
             (after (sample_world ["  YES "])
                [ProvidersList (subscription_id sample_source);
                 ProvidersList (subscription_id sample_destination)])
             scenario_S scenario_D [("Microsoft.Compute", true)] "  YES " []);
      reflexivity.
  - apply (confirmation_decides_apply sample_azure sample_source sample_destination
             (value ECHO) (sample_world [""])
             (after (sample_world [""])
                [ProvidersList (subscription_id sample_source)])
             (after (sample_world [""])
                [ProvidersList (subscription_id sample_source);
                 ProvidersList (subscription_id sample_destination)])
             scenario_S scenario_D [("Microsoft.Compute", true)] "" []);
      try reflexivity.
    simpl. discriminate.
Defined.

(** The same two runs, effect by effect. *)
Example accepted_run_trace :
  replicate_registrations sample_azure sample_source sample_destination
    (value ECHO) (sample_world ["  YES "])
  = (Ok tt,
     {| stdin := [];
        trace :=
          [ProvidersList "9f1c2d3e-4b5a-4c6d-8e7f-0123456789ab";
           ProvidersList "0a1b2c3d-4e5f-4a6b-9c7d-ba9876543210";
           Print "The following changes will be made to subscription 0a1b2c3d-4e5f-4a6b-9c7d-ba9876543210 (destination):";
           Print "Microsoft.Compute      => Register";
           Input "Enter 'yes' to proceed: ";
           ProvidersRegister "0a1b2c3d-4e5f-4a6b-9c7d-ba9876543210" "Microsoft.Compute";
           Print "Registering Microsoft.Compute in 0a1b2c3d-4e5f-4a6b-9c7d-ba9876543210 (destination)";
           Print "Provider registration edits complete. Providers may take minutes or longer to register, monitor progress through the Azure console."] |}).
Proof. vm_compute. reflexivity. Qed.

Example declined_run_trace :
  replicate_registrations sample_azure sample_source sample_destination
    (value ECHO) (sample_world ["y"])
  = (Ok tt,
     {| stdin := [];
        trace :=
          [ProvidersList "9f1c2d3e-4b5a-4c6d-8e7f-0123456789ab";
           ProvidersList "0a1b2c3d-4e5f-4a6b-9c7d-ba9876543210";
           Print "The following changes will be made to subscription 0a1b2c3d-4e5f-4a6b-9c7d-ba9876543210 (destination):";
           Print "Microsoft.Compute      => Register";
           Input "Enter 'yes' to proceed: ";
           Print "Aborting!"] |}).
Proof. vm_compute. reflexivity. Qed.

(** ** What [subscription_id_valid] accepts *)

Lemma is_hex_neq c x : is_hex c = true -> is_hex x = false -> Ascii.eqb c x = false.
Proof.
  intros Hc Hx. destruct (Ascii.eqb c x) eqn:E; auto.
  apply Ascii.eqb_eq in E. subst. congruence.
Qed.

Lemma is_hex_not_c_space c : is_hex c = true -> is_c_space c = false.
Proof.
  destruct c as [[] [] [] [] [] [] [] []]; intros H;
    solve [reflexivity | vm_compute in H; discriminate].
Qed.

Lemma hex_digit_range c d : hex_digit c = Some d -> (0 <= d < 16)%Z.
Proof.
  destruct c as [[] [] [] [] [] [] [] []]; intros H; vm_compute in H;
    solve [discriminate | injection H as <-; lia].
Qed.

Lemma prefix_cons a old c r :
  String.prefix (String a old) (String c r) = Ascii.eqb a c && String.prefix old r.
Proof.
  cbn [String.prefix]. destruct (ascii_dec a c) as [->|Hne].
  - now rewrite Ascii.eqb_refl.
  - apply Ascii.eqb_neq in Hne. now rewrite Hne.
Qed.

Lemma prefix_empty r : String.prefix EmptyString r = true.
Proof. destruct r; reflexivity. Qed.

Lemma replace_from_cons old new c r :
  replace_from old new 0 (String c r)
  = if String.prefix old (String c r)
    then new ++ replace_from old new (String.length old - 1) r
    else String c (replace_from old new 0 r).
Proof. reflexivity. Qed.

(** A text without the first character of [old] has no occurrence of it. *)
Lemma replace_absent a old new s :
  all_chars (fun c => negb (Ascii.eqb c a)) s = true ->
  str_replace (String a old) new s = s.
Proof.
  unfold str_replace. induction s as [|c r IH]; [reflexivity|].
  cbn [all_chars]. intros H. apply andb_true_iff in H. destruct H as [Hc Hr].
  rewrite replace_from_cons, prefix_cons.
  apply negb_true_iff in Hc. rewrite Ascii.eqb_sym in Hc. rewrite Hc.
  cbn [andb]. now rewrite IH.
Qed.

Lemma rstrip_absent p s :
  all_chars (fun c => negb (p c)) s = true -> rstrip_by p s = s.
Proof.
  induction s as [|c r IH]; simpl; auto.
  intros H. apply andb_true_iff in H. destruct H as [Hc Hr].
  rewrite IH by assumption. destruct r; auto.
  apply negb_true_iff in Hc. now rewrite Hc.
Qed.

Lemma strip_absent p s :
  all_chars (fun c => negb (p c)) s = true -> strip_by p s = s.
Proof.
  intros H. unfold strip_by.
  assert (Hl : lstrip_by p s = s).
  { destruct s as [|c r]; simpl in *; auto.
    apply andb_true_iff in H. destruct H as [Hc _].
    apply negb_true_iff in Hc. now rewrite Hc. }
  rewrite Hl. now apply rstrip_absent.
Qed.

Lemma all_chars_impl (p q : ascii -> bool) s :
  (forall c, p c = true -> q c = true) ->
  all_chars p s = true -> all_chars q s = true.
Proof.
  intros Hpq. induction s as [|c r IH]; simpl; auto.
  intros H. apply andb_true_iff in H. destruct H as [Hc Hr].
  now rewrite (Hpq c Hc), IH.
Qed.

Lemma hex_or_hyphen_neq x c :
  is_hex x = false -> Ascii.eqb x "-"%char = false ->
  hex_or_hyphen c = true -> negb (Ascii.eqb c x) = true.
Proof.
  intros Hx Hd H. apply negb_true_iff.
  destruct (Ascii.eqb c x) eqn:E; auto.
  apply Ascii.eqb_eq in E. subst c. unfold hex_or_hyphen in H.
  rewrite Hx, Hd in H. discriminate.
Qed.

(** Removing the hyphens leaves the hexadecimal digits. *)
Lemma remove_hyphens s :
  all_chars hex_or_hyphen s = true ->
  all_chars is_hex (str_replace "-" "" s) = true
  /\ String.length (str_replace "-" "" s) = count_chars is_hex s.
Proof.
  unfold str_replace. induction s as [|c r IH]; [auto|].
  cbn [all_chars count_chars]. intros H.
  apply andb_true_iff in H. destruct H as [Hc Hr].
  destruct (IH Hr) as [Hall Hlen].
  rewrite replace_from_cons, prefix_cons, prefix_empty, andb_true_r.
  destruct (Ascii.eqb "-" c) eqn:E.
  - apply Ascii.eqb_eq in E. subst c.
    change (String.length "-" - 1) with 0.
    change (is_hex "-") with false. cbn [String.append Nat.add].
    auto.
  - assert (Hhex : is_hex c = true).
    { unfold hex_or_hyphen in Hc. apply orb_true_iff in Hc.
      destruct Hc as [Hc|Hc]; auto. rewrite Ascii.eqb_sym in Hc. congruence. }
    cbn [all_chars String.length]. rewrite Hhex, Hall, Hlen. auto.
Qed.

Lemma hex_digits_all_hex s :
  all_chars is_hex s = true ->
  forall acc n k,
    (0 <= acc < 16 ^ Z.of_nat k)%Z ->
    exists v,
      hex_digits s false acc n = Some (v, n + String.length s, EmptyString)
      /\ (0 <= v < 16 ^ Z.of_nat (k + String.length s))%Z.
Proof.
  induction s as [|c r IH]; intros Hall acc n k Hacc.
  - exists acc. cbn [hex_digits String.length]. rewrite !Nat.add_0_r. auto.
  - cbn [all_chars] in Hall. apply andb_true_iff in Hall. destruct Hall as [Hc Hr].
    cbn [hex_digits String.length].
    rewrite (is_hex_neq c "_" Hc eq_refl).
    unfold is_hex in Hc. destruct (hex_digit c) as [d|] eqn:Ed; [|discriminate].
    pose proof (hex_digit_range c d Ed) as Hd.
    destruct (IH Hr (16 * acc + d)%Z (S n) (S k)) as (v & Hv & Hb).
    { rewrite Nat2Z.inj_succ, Z.pow_succ_r by lia. lia. }
    exists v. split.
    + rewrite Hv. f_equal. f_equal. f_equal. lia.
    + replace (k + S (String.length r)) with (S k + String.length r) by lia.
      exact Hb.
Qed.

Lemma int_base16_all_hex s :
  all_chars is_hex s = true ->
  s <> EmptyString ->
  exists v, int_base16 s = Ok v /\ (0 <= v < 16 ^ Z.of_nat (String.length s))%Z.
Proof.
  intros Hall Hne. destruct s as [|c r]; [congruence|].
  pose proof Hall as Hall'. simpl in Hall'.
  apply andb_true_iff in Hall'. destruct Hall' as [Hc Hr].
  destruct (hex_digits_all_hex (String c r) Hall 0%Z 0 0) as (v & Hv & Hb);
    [simpl; lia|].
  exists v. split; [|exact Hb].
  unfold int_base16.
  cbn [lstrip_by]. rewrite (is_hex_not_c_space c Hc).
  rewrite (is_hex_neq c "+" Hc eq_refl), (is_hex_neq c "-" Hc eq_refl).
  cbn [orb].
  assert (Hpre :
    match r with
    | String x r0 =>
        if Ascii.eqb c "0" && (Ascii.eqb x "x" || Ascii.eqb x "X")
        then match r0 with
             | String u r' => if Ascii.eqb u "_" then r' else r0
             | EmptyString => r0
             end
        else String c r
    | EmptyString => String c r
    end = String c r).
  { destruct r as [|x r0]; auto. simpl in Hr.
    apply andb_true_iff in Hr. destruct Hr as [Hx _].
    rewrite (is_hex_neq x "x" Hx eq_refl), (is_hex_neq x "X" Hx eq_refl).
    now rewrite andb_false_r. }
  rewrite Hpre. rewrite (is_hex_neq c "_" Hc eq_refl).
  rewrite Hv. reflexivity.
Qed.

(** The check accepts every text made of 32 hexadecimal digits with
    hyphens anywhere among them, whatever its version digit. *)
Lemma hex_text_accepted s :
  all_chars hex_or_hyphen s = true ->
  count_chars is_hex s = 32 ->
  subscription_id_valid s = true.
Proof.
  intros Hall Hcount. unfold subscription_id_valid, UUID.
  rewrite (replace_absent "u" "rn:" "" s)
    by (revert Hall; apply all_chars_impl; intros c; now apply hex_or_hyphen_neq).
  rewrite (replace_absent "u" "uid:" "" s)
    by (revert Hall; apply all_chars_impl; intros c; now apply hex_or_hyphen_neq).
  unfold str_strip_chars. rewrite strip_absent.
  2:{ revert Hall. apply all_chars_impl. intros c Hc. simpl.
      rewrite orb_false_r. apply negb_true_iff, orb_false_iff.
      split; apply negb_true_iff; now apply hex_or_hyphen_neq. }
  destruct (remove_hyphens s Hall) as [Hhex Hlen].
  rewrite Hlen, Hcount. cbn [Nat.eqb negb].
  destruct (int_base16_all_hex _ Hhex) as (v & -> & Hv).
  { intros E. rewrite E in Hlen. simpl in Hlen. lia. }
  rewrite Hlen, Hcount in Hv. cbn [rbind].
  assert (Hrange : ((0 <=? v) && (v <? Z.shiftl 1 128))%Z = true).
  { apply andb_true_iff. split; [apply Z.leb_le | apply Z.ltb_lt].
    - lia.
    - change (Z.shiftl 1 128) with (16 ^ Z.of_nat 32)%Z. lia. }
  rewrite Hrange. reflexivity.
Qed.


Lemma uuid4_char_hex_or_hyphen i c : uuid4_char_ok i c = true -> hex_or_hyphen c = true.
Proof.
  unfold uuid4_char_ok, hex_or_hyphen.
  destruct ((i =? 8) || (i =? 13) || (i =? 18) || (i =? 23))%nat;
    [intros ->; apply orb_true_r|].
  destruct (i =? 14)%nat.
  { intros H. apply Ascii.eqb_eq in H. now subst. }
  destruct (i =? 19)%nat; [|intros ->; reflexivity].
  cbn [mem_char]. rewrite orb_false_r. intros H.
  repeat (apply orb_true_iff in H; destruct H as [H|H]);
    apply Ascii.eqb_eq in H; now subst.
Qed.

Lemma uuid4_chars_hex_or_hyphen s i :
  uuid4_chars_ok i s = true -> all_chars hex_or_hyphen s = true.
Proof.
  revert i. induction s as [|c r IH]; intros i; cbn [uuid4_chars_ok all_chars]; auto.
  intros H. apply andb_true_iff in H. destruct H as [Hc Hr].
  now rewrite (uuid4_char_hex_or_hyphen i c Hc), (IH (S i) Hr).
Qed.

Lemma uuid4_char_is_hex i c :
  uuid4_char_ok i c = true ->
  is_hex c = negb ((i =? 8) || (i =? 13) || (i =? 18) || (i =? 23))%nat.
Proof.
  intros H. pose proof (uuid4_char_hex_or_hyphen i c H) as Hh.
  unfold uuid4_char_ok in H.
  destruct ((i =? 8) || (i =? 13) || (i =? 18) || (i =? 23))%nat.
  - apply Ascii.eqb_eq in H. now subst.
  - unfold hex_or_hyphen in Hh. apply orb_true_iff in Hh.
    destruct Hh as [Hh|Hh]; auto.
    apply Ascii.eqb_eq in Hh. subst c.
    destruct (i =? 14)%nat; [discriminate|].
    destruct (i =? 19)%nat; discriminate.
Qed.

(** The number of hexadecimal digits among the characters at positions
    [i], [i+1], ... of the RFC 4122 layout. *)
Lemma uuid4_chars_count s i :
  uuid4_chars_ok i s = true ->
  count_chars is_hex s
  = List.length (filter (fun j => negb ((j =? 8) || (j =? 13) || (j =? 18) || (j =? 23))%nat)
                   (seq i (String.length s))).
Proof.
  revert i. induction s as [|c r IH]; intros i; [reflexivity|].
  cbn [uuid4_chars_ok count_chars String.length seq filter].
  intros H. apply andb_true_iff in H. destruct H as [Hc Hr].
  rewrite (uuid4_char_is_hex i c Hc), (IH (S i) Hr).
  destruct (negb ((i =? 8) || (i =? 13) || (i =? 18) || (i =? 23))%nat); reflexivity.
Qed.

(** Every text in the version-4 layout passes the check. *)
Lemma uuid4_formatted_accepted s :
  is_uuid4_formatted s = true -> subscription_id_valid s = true.
Proof.
  unfold is_uuid4_formatted. intros H.
  apply andb_true_iff in H. destruct H as [Hlen Hok].
  apply Nat.eqb_eq in Hlen.
  apply hex_text_accepted.
  - eapply uuid4_chars_hex_or_hyphen; eauto.
  - rewrite (uuid4_chars_count s 0 Hok), Hlen. reflexivity.
Qed.

(** ** Entry validation *)

Section MainFacts.

Variable azure : Azure.
Variables src dst : string.
Variable w : World.

Lemma main_rejects_equal_ids name :
  src = dst ->
  main azure src dst name w
  = (Raise (RuntimeError "Subscription ID for source and destination must not match!"), w).
Proof. intros ->. unfold main. now rewrite String.eqb_refl. Qed.

Hypothesis distinct : src <> dst.

Lemma main_rejects_invalid_source name :
  subscription_id_valid src = false ->
  main azure src dst name w
  = (Raise (RuntimeError "Source subscription ID doesn't appear to be a valid UUID."), w).
Proof.
  intros Hs. unfold main. apply String.eqb_neq in distinct.
  rewrite distinct, Hs. reflexivity.
Qed.

Lemma main_rejects_invalid_destination name :
  subscription_id_valid src = true ->
  subscription_id_valid dst = false ->
  main azure src dst name w
  = (Raise (RuntimeError "Destination subscription ID doesn't appear to be a valid UUID."), w).
Proof.
  intros Hs Hd. unfold main. apply String.eqb_neq in distinct.
  rewrite distinct, Hs, Hd. reflexivity.
Qed.

Lemma main_validated name :
  subscription_id_valid src = true ->
  subscription_id_valid dst = true ->
  main azure src dst name w
  = (strategy <- lift match name with
                       | None => Ok DEFAULT_REPLICATION_STRATEGY
                       | Some n => ReplicationStrategy_of n
                       end ;;
     source_subscription <- get_subscription azure src ;;
     destination_subscription <- get_subscription azure dst ;;
     replicate_registrations azure source_subscription destination_subscription
       (value strategy))%M w.
Proof.
  intros Hs Hd. unfold main. apply String.eqb_neq in distinct.
  rewrite distinct, Hs, Hd. reflexivity.
Qed.

End MainFacts.

Lemma generate_unrecognized (S D : Registrations) (strategy : string) :
  strategy <> value ECHO ->
  strategy <> value SYNC ->
  generate_registration_delta S D strategy
  = Raise (NotImplementedError
             ("Unrecognized replication strategy " ++ strategy ++ "!")).
Proof.
  intros He Hs. unfold generate_registration_delta.
  apply String.eqb_neq in He, Hs. rewrite He, Hs. reflexivity.
Qed.

Example not_a_guid_rejected :
  subscription_id_valid "not-a-guid" = false
  /\ (forall azure w,
        main azure "not-a-guid" (subscription_id sample_destination) None w
        = (Raise (RuntimeError "Source subscription ID doesn't appear to be a valid UUID."), w))
  /\ (forall azure w,
        main azure (subscription_id sample_source) "not-a-guid" None w
        = (Raise (RuntimeError "Destination subscription ID doesn't appear to be a valid UUID."), w)).
Proof.
  split; [reflexivity|]. split; intros azure w.
  - apply main_rejects_invalid_source; [discriminate | reflexivity].
  - apply main_rejects_invalid_destination; [discriminate | reflexivity | reflexivity].
Qed.

Example two_uuid4_accepted :
  is_uuid4_formatted (subscription_id sample_source) = true
  /\ is_uuid4_formatted (subscription_id sample_destination) = true
  /\ fst (main sample_azure (subscription_id sample_source)
            (subscription_id sample_destination) None (sample_world ["yes"]))
     = Ok tt.
Proof. repeat split; vm_compute; reflexivity. Qed.

(** C6 as the specification words it does not hold: the error of entry
    validation on an unknown strategy name is not the evaluator's error. *)
Lemma entry_validation_error_is_not_the_evaluators :
  ~ (exists e,
       fst (main sample_azure (subscription_id sample_source)
              (subscription_id sample_destination) (Some "bogus") (sample_world []))
       = Raise e
       /\ generate_registration_delta scenario_S scenario_D "bogus" = Raise e).
Proof.
  intros (e & Hmain & Heval).
  vm_compute in Hmain. vm_compute in Heval. congruence.
Qed.

(** C6 (amended): on a strategy value other than "echo" and "sync" the
    evaluator raises [NotImplementedError], whatever the snapshots; entry
    validation, given valid and distinct identifiers and such a name,
    fails before any lookup with the [ValueError] of the enumeration's
    lookup, which is an error of another class. *)
Theorem unsupported_strategy_errors (azure : Azure) (S D : Registrations)
    (src dst name : string) (w : World) :
  name <> value ECHO ->
  name <> value SYNC ->
  src <> dst ->
  subscription_id_valid src = true ->
  subscription_id_valid dst = true ->
  generate_registration_delta S D name
  = Raise (NotImplementedError ("Unrecognized replication strategy " ++ name ++ "!"))
  /\ main azure src dst (Some name) w
     = (Raise (EnumValueError name "ReplicationStrategy"), w)
  /\ class_of (EnumValueError name "ReplicationStrategy") = cValueError
  /\ class_of (NotImplementedError
                 ("Unrecognized replication strategy " ++ name ++ "!"))
     = cNotImplementedError.
Proof.
  intros He Hs Hne Hsrc Hdst. split; [now apply generate_unrecognized|].
  split; [|split; reflexivity].
  rewrite main_validated by assumption.
  unfold bind, lift, ReplicationStrategy_of.
  apply String.eqb_neq in He, Hs. rewrite He, Hs. reflexivity.
Qed.

Lemma unsupported_strategy_errors_witness :
  generate_registration_delta scenario_S scenario_D "bogus"
  = Raise (NotImplementedError "Unrecognized replication strategy bogus!")
  /\ main sample_azure (subscription_id sample_source)
       (subscription_id sample_destination) (Some "bogus") (sample_world [])
     = (Raise (EnumValueError "bogus" "ReplicationStrategy"), sample_world [])
  /\ class_of (EnumValueError "bogus" "ReplicationStrategy") = cValueError
  /\ class_of (NotImplementedError "Unrecognized replication strategy bogus!")
     = cNotImplementedError.
Proof.
  apply (unsupported_strategy_errors sample_azure scenario_S scenario_D
           (subscription_id sample_source) (subscription_id sample_destination)
           "bogus" (sample_world []));
    try discriminate; reflexivity.
Defined.

(** C5: [subscription_id_valid] does not reject every identifier that is
    not a version-4 UUID.  The identifier [version1_id] has version digit
    1, yet the check returns [True] and [main] goes on to look the
    subscription up instead of raising the invalid-source (or
    invalid-destination) error. *)
Theorem version1_id_passes_validation :
  is_uuid4_formatted version1_id = false
  /\ subscription_id_valid version1_id = true
  /\ main sample_azure version1_id (subscription_id sample_destination) None
       (sample_world [])
     = (Raise (SdkError "SubscriptionNotFound"),
        after (sample_world []) [SubscriptionsGet version1_id])
  /\ main sample_azure (subscription_id sample_source) version1_id None
       (sample_world [])
     = (Raise (SdkError "SubscriptionNotFound"),
        after (sample_world [])
          [SubscriptionsGet (subscription_id sample_source);
           SubscriptionsGet version1_id]).
Proof. repeat split; vm_compute; reflexivity. Qed.

(** Other texts that are no version-4 UUID and pass the check: no
    hyphens, a URN in braces, a sign, a base prefix. *)
Example more_accepted_identifiers :
  forallb (fun s => negb (is_uuid4_formatted s) && subscription_id_valid s)
    ["00000000000000000000000000000000";
     "{urn:uuid:12345678-1234-5678-1234-567812345678}";
     "+0000000000000000000000000000000";
     "0x000000000000000000000000000000"] = true.
Proof. vm_compute. reflexivity. Qed.

(** * Further properties of the code *)

(** ** The delta as a list: order and entries *)

Section DeltaOrder.
Import Dict DictFacts.

Lemma setitem_fresh (d : Registrations) k v :
  get d k = None -> setitem d k v = (d ++ [(k, v)])%list.
Proof.
  induction d as [|[k' v'] rest IH]; simpl; auto.
  destruct (String.eqb k k'); [discriminate|].
  intros H. now rewrite IH.
Qed.

Lemma get_app_None (d1 d2 : Registrations) k :
  get d1 k = None -> get d2 k = None -> get (d1 ++ d2)%list k = None.
Proof.
  induction d1 as [|[k' v'] rest IH]; simpl; auto.
  destruct (String.eqb k k'); [discriminate | auto].
Qed.

Lemma for_items_filter (c : string -> bool -> bool) body its acc :
  (forall p e d, In (p, e) its ->
                 body p e d = Ok (if c p e then setitem d p e else d)) ->
  NoDup (map fst its) ->
  (forall k, In k (map fst its) -> get acc k = None) ->
  for_items its body acc
  = Ok (acc ++ filter (fun kv => c (fst kv) (snd kv)) its)%list.
Proof.
  revert acc. induction its as [|[p e] rest IH]; intros acc Hbody Hnd Hfresh.
  - simpl. now rewrite app_nil_r.
  - cbn [for_items]. rewrite (Hbody p e acc) by now left.
    cbn [rbind filter fst snd map] in *.
    inversion Hnd as [|? ? Hnotin Hnd']; subst.
    rewrite IH; auto.
    + destruct (c p e); auto.
      rewrite setitem_fresh by (apply Hfresh; now left).
      now rewrite <- app_assoc.
    + intros. apply Hbody. now right.
    + intros k Hk. destruct (c p e); [|apply Hfresh; now right].
      rewrite setitem_fresh by (apply Hfresh; now left).
      apply get_app_None; [apply Hfresh; now right|].
      simpl. destruct (String.eqb_spec k p) as [->|_]; [contradiction | reflexivity].
Qed.

End DeltaOrder.

Lemma generate_as_filter (S D : Registrations) :
  Dict.wf S ->
  generate_registration_delta S D (value ECHO)
  = Ok (filter (fun kv => echo_cond D (fst kv) (snd kv)) S)
  /\ generate_registration_delta S D (value SYNC)
     = Ok (filter (fun kv => sync_cond D (fst kv) (snd kv)) S).
Proof.
  intros HS. split.
  - apply (for_items_filter (echo_cond D) (echo_body D) S Dict.empty).
    + intros. apply echo_body_eq.
    + exact HS.
    + reflexivity.
  - apply (for_items_filter (sync_cond D) (sync_body S D) S Dict.empty).
    + intros p e d Hin. apply sync_body_eq, (DictFacts.In_get _ _ _ HS Hin).
    + exact HS.
    + reflexivity.
Qed.

(** X2: the delta lists the qualifying entries of the source in the
    source's own order: under ECHO the entries that are [true] in the
    source and [false] in the destination, under SYNC the entries whose
    value differs from the destination's. *)
Theorem delta_in_source_order (S D : Registrations) :
  Dict.wf S ->
  generate_registration_delta S D (value ECHO)
  = Ok (filter (fun kv => snd kv
                          && match Dict.get D (fst kv) with
                             | Some false => true
                             | _ => false
                             end) S)
  /\ generate_registration_delta S D (value SYNC)
     = Ok (filter (fun kv => match Dict.get D (fst kv) with
                             | Some d => negb (Bool.eqb (snd kv) d)
                             | None => false
                             end) S).
Proof. exact (generate_as_filter S D). Qed.

Lemma delta_in_source_order_witness :
  generate_registration_delta scenario_S scenario_D (value ECHO)
  = Ok (filter (fun kv => snd kv
                          && match Dict.get scenario_D (fst kv) with
                             | Some false => true
                             | _ => false
                             end) scenario_S)
  /\ generate_registration_delta scenario_S scenario_D (value SYNC)
     = Ok (filter (fun kv => match Dict.get scenario_D (fst kv) with
                             | Some d => negb (Bool.eqb (snd kv) d)
                             | None => false
                             end) scenario_S).
Proof. apply (delta_in_source_order scenario_S scenario_D). exact scenario_S_wf. Defined.

(** X3: the ECHO delta is the SYNC delta without its [false] entries, in
    the same order. *)
Theorem echo_is_sync_registrations (S D ds : Registrations) :
  Dict.wf S ->
  generate_registration_delta S D (value SYNC) = Ok ds ->
  generate_registration_delta S D (value ECHO) = Ok (filter (fun kv => snd kv) ds).
Proof.
  intros HS Hs.
  destruct (generate_as_filter S D HS) as [He Hs'].
  rewrite Hs in Hs'. injection Hs' as ->. rewrite He. f_equal.
  clear. unfold echo_cond, sync_cond.
  induction S as [|[p e] rest IH]; simpl; auto.
  destruct (Dict.get D p) as [[|]|]; destruct e; simpl; rewrite ?IH; auto.
Qed.

Lemma echo_is_sync_registrations_witness :
  generate_registration_delta [("X", false); ("Y", true)] [("X", true); ("Y", false)]
    (value ECHO)
  = Ok (filter (fun kv => snd kv) [("X", false); ("Y", true)]).
Proof.
  apply (echo_is_sync_registrations [("X", false); ("Y", true)]
           [("X", true); ("Y", false)] [("X", false); ("Y", true)]).
  - unfold Dict.wf. simpl. repeat constructor; simpl; intuition discriminate.
  - reflexivity.
Defined.

(** ** The two strategies compared, and the destination after the delta *)

(** X4: SYNC in the opposite direction changes the same namespaces, with
    the opposite values. *)
Theorem sync_swapped (S D d1 d2 : Registrations) (ns : string) (v : bool) :
  Dict.wf S -> Dict.wf D ->
  generate_registration_delta S D (value SYNC) = Ok d1 ->
  generate_registration_delta D S (value SYNC) = Ok d2 ->
  Dict.get d1 ns = Some v <-> Dict.get d2 ns = Some (negb v).
Proof.
  intros HS HD H1 H2.
  destruct (sync_spec S D HS) as (x & Hx & _ & Hspec1).
  rewrite H1 in Hx. injection Hx as <-.
  destruct (sync_spec D S HD) as (y & Hy & _ & Hspec2).
  rewrite H2 in Hy. injection Hy as <-.
  rewrite Hspec1, Hspec2. split.
  - intros (Hs & d & Hd & Hne). split.
    + rewrite Hd. f_equal. destruct v, d; simpl; congruence.
    + exists v. split; [exact Hs | destruct v; discriminate].
  - intros (Hd & s & Hs & Hne). split.
    + rewrite Hs. f_equal. destruct v, s; simpl in *; congruence.
    + exists (negb v). split; [exact Hd | destruct v; discriminate].
Qed.

Lemma sync_swapped_witness :
  Dict.get [("X", false)] "X" = Some false
  <-> Dict.get [("X", true)] "X" = Some (negb false).
Proof.
  apply (sync_swapped [("X", false)] [("X", true)] [("X", false)] [("X", true)]
           "X" false);
    try reflexivity;
    unfold Dict.wf; simpl; repeat constructor; simpl; intuition.
Defined.

(** X5: once the SYNC delta has been written into the destination, a
    namespace known to both sides has the source's value, and every other
    namespace of the destination is as it was; no namespace is added. *)
Theorem sync_then_update_mirrors (S D delta : Registrations) (ns : string) :
  Dict.wf S ->
  generate_registration_delta S D (value SYNC) = Ok delta ->
  Dict.get (Dict.update D delta) ns
  = match Dict.get D ns, Dict.get S ns with
    | Some _, Some s => Some s
    | current, _ => current
    end.
Proof.
  intros HS Hrun.
  destruct (sync_spec S D HS) as (x & Hx & Hwf & Hspec).
  rewrite Hrun in Hx. injection Hx as <-.
  rewrite DictFacts.get_update by exact Hwf.
  destruct (Dict.get delta ns) as [v|] eqn:E.
  - apply Hspec in E. destruct E as (Hs & d & Hd & _). now rewrite Hd, Hs.
  - destruct (Dict.get D ns) as [d|] eqn:Ed; [|reflexivity].
    destruct (Dict.get S ns) as [s|] eqn:Es; [|reflexivity].
    destruct (Bool.bool_dec s d) as [->|Hne]; [reflexivity|].
    assert (H : Dict.get delta ns = Some s) by (apply Hspec; eauto).
    congruence.
Qed.

Lemma sync_then_update_mirrors_witness :
  Dict.get (Dict.update [("X", true); ("Z", true)] [("X", false)]) "X"
  = match Dict.get [("X", true); ("Z", true)] "X",
          Dict.get [("X", false); ("Y", true)] "X" with
    | Some _, Some s => Some s
    | current, _ => current
    end.
Proof.
  apply (sync_then_update_mirrors [("X", false); ("Y", true)]
           [("X", true); ("Z", true)] [("X", false)] "X").
  - unfold Dict.wf. simpl. repeat constructor; simpl; intuition discriminate.
  - reflexivity.
Defined.

(** X6: once the ECHO delta has been written into the destination, a
    namespace is changed only from [false] to [true], and exactly when the
    source has it [true]; in particular nothing that was registered in the
    destination is unregistered. *)
Theorem echo_then_update_only_registers (S D delta : Registrations) (ns : string) :
  Dict.wf S ->
  generate_registration_delta S D (value ECHO) = Ok delta ->
  Dict.get (Dict.update D delta) ns
  = match Dict.get D ns, Dict.get S ns with
    | Some false, Some true => Some true
    | current, _ => current
    end.
Proof.
  intros HS Hrun.
  destruct (echo_spec S D HS) as (x & Hx & Hwf & Hspec).
  rewrite Hrun in Hx. injection Hx as <-.
  rewrite DictFacts.get_update by exact Hwf.
  destruct (Dict.get delta ns) as [v|] eqn:E.
  - apply Hspec in E. destruct E as (-> & Hs & Hd). now rewrite Hd, Hs.
  - destruct (Dict.get D ns) as [[|]|] eqn:Ed; try reflexivity.
    destruct (Dict.get S ns) as [[|]|] eqn:Es; try reflexivity.
    assert (H : Dict.get delta ns = Some true) by (apply Hspec; auto).
    congruence.
Qed.

Lemma echo_then_update_only_registers_witness :
  Dict.get (Dict.update scenario_D [("Microsoft.Compute", true)]) "Microsoft.Storage"
  = match Dict.get scenario_D "Microsoft.Storage",
          Dict.get scenario_S "Microsoft.Storage" with
    | Some false, Some true => Some true
    | current, _ => current
    end.
Proof.
  apply (echo_then_update_only_registers scenario_S scenario_D
           [("Microsoft.Compute", true)] "Microsoft.Storage").
  - exact scenario_S_wf.
  - reflexivity.
Defined.

(** X7: the delta is empty exactly when there is nothing to do: under
    SYNC when the two snapshots agree on every namespace they share, under
    ECHO when no namespace registered in the source is unregistered in the
    destination. *)
Theorem empty_delta_iff (S D : Registrations) :
  Dict.wf S ->
  (generate_registration_delta S D (value SYNC) = Ok []
   <-> forall ns s d, Dict.get S ns = Some s -> Dict.get D ns = Some d -> s = d)
  /\ (generate_registration_delta S D (value ECHO) = Ok []
      <-> forall ns, Dict.get S ns = Some true -> Dict.get D ns <> Some false).
Proof.
  intros HS. split.
  - destruct (sync_spec S D HS) as (delta & Hrun & _ & Hspec). rewrite Hrun. split.
    + intros [= ->] ns s d Hs Hd.
      destruct (Bool.bool_dec s d) as [|Hne]; auto.
      assert (H : Dict.get [] ns = Some s) by (apply Hspec; eauto).
      discriminate.
    + intros Hagree. f_equal. apply DictFacts.get_all_None. intros ns.
      destruct (Dict.get delta ns) as [v|] eqn:E; auto.
      apply Hspec in E. destruct E as (Hs & d & Hd & Hne).
      elim Hne. eauto.
  - destruct (echo_spec S D HS) as (delta & Hrun & _ & Hspec). rewrite Hrun. split.
    + intros [= ->] ns Hs Hd.
      assert (H : Dict.get [] ns = Some true) by (apply Hspec; auto).
      discriminate.
    + intros Hnone. f_equal. apply DictFacts.get_all_None. intros ns.
      destruct (Dict.get delta ns) as [v|] eqn:E; auto.
      apply Hspec in E. destruct E as (_ & Hs & Hd).
      elim (Hnone ns Hs Hd).
Qed.

Lemma empty_delta_iff_witness :
  (generate_registration_delta scenario_D scenario_S (value SYNC) = Ok []
   <-> forall ns s d, Dict.get scenario_D ns = Some s ->
                      Dict.get scenario_S ns = Some d -> s = d)
  /\ (generate_registration_delta scenario_D scenario_S (value ECHO) = Ok []
      <-> forall ns, Dict.get scenario_D ns = Some true ->
                     Dict.get scenario_S ns <> Some false).
Proof.
  apply (empty_delta_iff scenario_D scenario_S).
  unfold Dict.wf. simpl. repeat constructor; simpl; intuition discriminate.
Defined.

(** ** The report's columns *)

Lemma length_spaces n : String.length (spaces n) = n.
Proof. induction n; simpl; auto. Qed.

Lemma length_app_string s1 s2 :
  String.length (s1 ++ s2) = String.length s1 + String.length s2.
Proof. induction s1; simpl; auto. Qed.

Lemma app_string_assoc s1 s2 s3 : (s1 ++ s2) ++ s3 = s1 ++ s2 ++ s3.
Proof. induction s1; simpl; [reflexivity | now f_equal]. Qed.

Lemma key_le_longest (delta : Registrations) kv :
  In kv delta -> String.length (fst kv) <= longest_key delta.
Proof.
  intros Hin. unfold longest_key, Dict.keys.
  assert (H : Forall (fun k => k <= list_max (map String.length (map fst delta)))
                (map String.length (map fst delta)))
    by (apply list_max_le; lia).
  rewrite Forall_forall in H. apply H.
  apply in_map, in_map, Hin.
Qed.

(** X8: in a report every namespace is followed by at least five spaces
    and padded to one common width, the length of the longest namespace
    plus 5, so that the arrows of all lines stand in the same column. *)
Theorem report_columns_aligned (delta : Registrations) (kv : string * bool) :
  In kv delta ->
  exists pad,
    5 <= pad
    /\ String.length (fst kv) + pad = longest_key delta + 5
    /\ report_line (longest_key delta + 5) kv
       = fst kv ++ spaces pad ++ " => "
         ++ (if snd kv then "Register" else "Unregister").
Proof.
  intros Hin. pose proof (key_le_longest delta kv Hin) as Hle.
  exists (longest_key delta + 5 - String.length (fst kv)).
  split; [lia|]. split; [lia|].
  unfold report_line, str_ljust. apply app_string_assoc.
Qed.

Lemma report_columns_aligned_witness :
  exists pad,
    5 <= pad
    /\ String.length "Microsoft.Cdn" + pad = longest_key scenario_S + 5
    /\ report_line (longest_key scenario_S + 5) ("Microsoft.Cdn", true)
       = "Microsoft.Cdn" ++ spaces pad ++ " => " ++ "Register".
Proof.
  apply (report_columns_aligned scenario_S ("Microsoft.Cdn", true)).
  simpl. auto.
Defined.

(** ** The snapshot of a subscription *)

Section SnapshotFacts.

Variable azure : Azure.

Lemma snapshot_fold (ps : list Provider) (d : Registrations) (ns : string) :
  Dict.get (fold_left (fun d p => Dict.setitem d (namespace p)
                                    (String.eqb (registration_state p) "Registered"))
              ps d) ns
  = match last_listed ns ps with
    | Some p => Some (is_registered p)
    | None => Dict.get d ns
    end.
Proof.
  unfold last_listed. induction ps as [|p ps IH] using rev_ind; [reflexivity|].
  rewrite fold_left_app, rev_unit. cbn [fold_left find].
  destruct (String.eqb_spec (namespace p) ns) as [<-|Hne].
  - apply DictFacts.get_setitem_eq.
  - rewrite DictFacts.get_setitem_neq by exact Hne. exact IH.
Qed.

Lemma snapshot_wf (ps : list Provider) (d : Registrations) :
  Dict.wf d ->
  Dict.wf (fold_left (fun d p => Dict.setitem d (namespace p)
                                   (String.eqb (registration_state p) "Registered"))
             ps d).
Proof.
  revert d. induction ps as [|p ps IH]; intros d Hd; simpl; auto.
  apply IH, DictFacts.wf_setitem, Hd.
Qed.

End SnapshotFacts.

(** X9: when the listing succeeds, the snapshot is a dict with one entry
    per listed namespace; a namespace is [true] exactly when its state is
    the text "Registered" (any other state, a transitional one included,
    gives [false]), and of two listings of one namespace the later one
    counts.  The only effect is the listing call. *)
Theorem snapshot_of_listing (azure : Azure) (sub : Subscription) (w : World)
    (ps : list Provider) :
  providers_list azure (trace w) (subscription_id sub) = Ok ps ->
  exists snapshot,
    get_subscription_registrations azure sub w
    = (Ok snapshot, after w [ProvidersList (subscription_id sub)])
    /\ Dict.wf snapshot
    /\ forall ns,
         Dict.get snapshot ns
         = option_map (fun p => String.eqb (registration_state p) "Registered")
             (last_listed ns ps).
Proof.
  intros Hlist. eexists. split; [|split].
  - unfold get_subscription_registrations, bind, call, ret. rewrite Hlist.
    reflexivity.
  - apply snapshot_wf, DictFacts.wf_empty.
  - intros ns. rewrite snapshot_fold.
    destruct (last_listed ns ps); reflexivity.
Qed.

Lemma snapshot_of_listing_witness :
  exists snapshot,
    get_subscription_registrations sample_azure sample_source (sample_world [])
    = (Ok snapshot,
       after (sample_world []) [ProvidersList (subscription_id sample_source)])
    /\ Dict.wf snapshot
    /\ forall ns,
         Dict.get snapshot ns
         = option_map (fun p => String.eqb (registration_state p) "Registered")
             (last_listed ns
                [ {| namespace := "Microsoft.Compute"; registration_state := "Registered" |};
                  {| namespace := "Microsoft.Storage"; registration_state := "NotRegistered" |};
                  {| namespace := "Microsoft.Cdn"; registration_state := "Registered" |} ]).
Proof.
  apply (snapshot_of_listing sample_azure sample_source (sample_world [])).
  reflexivity.
Defined.

(** X10: when the listing fails, the exception comes out unchanged and no
    snapshot is built. *)
Theorem snapshot_listing_failure (azure : Azure) (sub : Subscription) (w : World)
    (e : exn) :
  providers_list azure (trace w) (subscription_id sub) = Raise e ->
  get_subscription_registrations azure sub w
  = (Raise e, after w [ProvidersList (subscription_id sub)]).
Proof.
  intros Hlist. unfold get_subscription_registrations, bind, call.
  now rewrite Hlist.
Qed.

Lemma snapshot_listing_failure_witness :
  get_subscription_registrations unreachable_azure sample_source (sample_world [])
  = (Raise (SdkError "ServiceUnavailable"),
     after (sample_world []) [ProvidersList (subscription_id sample_source)]).
Proof.
  apply (snapshot_listing_failure unreachable_azure sample_source (sample_world [])
           (SdkError "ServiceUnavailable")).
  reflexivity.
Defined.

(** ** Applying a delta *)

Section ApplyFacts.

Variable azure : Azure.
Variable sub : Subscription.

Lemma set_registration_run (kv : string * bool) (w : World) :
  set_subscription_registration azure sub (fst kv) (snd kv) w
  = match call_answer azure (trace w) sub kv with
    | Ok _ => (Ok tt, after w [call_event sub kv; call_line sub kv])
    | Raise e => (Raise e, after w [call_event sub kv])
    end.
Proof.
  unfold set_subscription_registration, call_answer, call_event, call_line.
  destruct (snd kv); unfold bind, call, print, emit, after; simpl.
  - destruct (providers_register azure (trace w) (subscription_id sub) (fst kv));
      simpl; [rewrite <- app_assoc|]; reflexivity.
  - destruct (providers_unregister azure (trace w) (subscription_id sub) (fst kv));
      simpl; [rewrite <- app_assoc|]; reflexivity.
Qed.

Lemma apply_delta_cons (kv : string * bool) (rest : Registrations) (w : World) :
  apply_delta azure sub (kv :: rest) w
  = match call_answer azure (trace w) sub kv with
    | Ok _ => apply_delta azure sub rest (after w [call_event sub kv; call_line sub kv])
    | Raise e => (Raise e, after w [call_event sub kv])
    end.
Proof.
  unfold apply_delta, Dict.items. cbn [for_each]. unfold bind.
  rewrite set_registration_run.
  destruct (call_answer azure (trace w) sub kv); reflexivity.
Qed.

Lemma apply_delta_prefix (d1 rest : Registrations) (w : World) :
  (forall h x, In x d1 -> call_answer azure h sub x = Ok tt) ->
  apply_delta azure sub (d1 ++ rest)%list w
  = apply_delta azure sub rest (after w (apply_events sub d1)).
Proof.
  revert w. induction d1 as [|kv d1 IH]; intros w Hok.
  - simpl. now rewrite after_nil.
  - cbn [app]. rewrite apply_delta_cons, Hok by now left.
    rewrite IH by (intros; apply Hok; now right).
    now rewrite after_after.
Qed.

End ApplyFacts.

(** X11: when every call succeeds, applying a delta makes exactly one SDK
    call per entry, in the order of the delta: [register] for a [true]
    entry and [unregister] for a [false] one, each followed by its line on
    the console. *)
Theorem apply_delta_calls_each_once (azure : Azure) (sub : Subscription)
    (d : Registrations) (w : World) :
  (forall h x, In x d -> call_answer azure h sub x = Ok tt) ->
  apply_delta azure sub d w
  = (Ok tt,
     after w (flat_map
                (fun kv : string * bool =>
                   if snd kv then
                     [ProvidersRegister (subscription_id sub) (fst kv);
                      Print ("Registering " ++ fst kv ++ " in " ++ subscription_id sub
                             ++ " (" ++ display_name sub ++ ")")]
                   else
                     [ProvidersUnregister (subscription_id sub) (fst kv);
                      Print ("Unregistering " ++ fst kv ++ " in " ++ subscription_id sub
                             ++ " (" ++ display_name sub ++ ")")])
                d)).
Proof.
  intros Hok.
  rewrite <- (app_nil_r d) at 1. rewrite apply_delta_prefix by exact Hok.
  unfold apply_delta. simpl. unfold ret. f_equal. f_equal.
  unfold apply_events. clear. induction d as [|kv d IH]; [reflexivity|].
  cbn [flat_map]. rewrite IH. unfold call_event, call_line.
  destruct (snd kv); reflexivity.
Qed.

Lemma apply_delta_calls_each_once_witness :
  apply_delta sample_azure sample_destination [("A", true); ("B", false)]
    (sample_world [])
  = (Ok tt,
     after (sample_world [])
       (flat_map
          (fun kv : string * bool =>
             if snd kv then
               [ProvidersRegister (subscription_id sample_destination) (fst kv);
                Print ("Registering " ++ fst kv ++ " in "
                       ++ subscription_id sample_destination
                       ++ " (" ++ display_name sample_destination ++ ")")]
             else
               [ProvidersUnregister (subscription_id sample_destination) (fst kv);
                Print ("Unregistering " ++ fst kv ++ " in "
                       ++ subscription_id sample_destination
                       ++ " (" ++ display_name sample_destination ++ ")")])
          [("A", true); ("B", false)])).
Proof.
  apply (apply_delta_calls_each_once sample_azure sample_destination
           [("A", true); ("B", false)] (sample_world [])).
  intros h x _. unfold call_answer. simpl. destruct (snd x); reflexivity.
Defined.

(** X12: applying a delta stops at the first call that fails.  The
    exception comes out unchanged; the entries before it stay applied
    (nothing is undone), the failed call prints no line, and the entries
    after it are not touched. *)
Theorem apply_delta_stops_at_failure (azure : Azure) (sub : Subscription)
    (before after_it : Registrations) (kv : string * bool) (w : World) (e : exn) :
  (forall h x, In x before -> call_answer azure h sub x = Ok tt) ->
  call_answer azure (trace w ++ apply_events sub before)%list sub kv = Raise e ->
  apply_delta azure sub (before ++ kv :: after_it)%list w
  = (Raise e, after w (apply_events sub before ++ [call_event sub kv])%list).
Proof.
  intros Hok Hfail.
  rewrite apply_delta_prefix by exact Hok.
  rewrite apply_delta_cons. cbn [after trace]. rewrite Hfail.
  now rewrite after_after.
Qed.

Lemma apply_delta_stops_at_failure_witness :
  apply_delta refusing_azure sample_destination
    ([("Microsoft.Compute", true)]
     ++ ("Microsoft.Storage", false) :: [("Microsoft.Cdn", true)])%list
    (sample_world [])
  = (Raise (SdkError "AuthorizationFailed"),
     after (sample_world [])
       (apply_events sample_destination [("Microsoft.Compute", true)]
        ++ [call_event sample_destination ("Microsoft.Storage", false)])%list).
Proof.
  apply (apply_delta_stops_at_failure refusing_azure sample_destination
           [("Microsoft.Compute", true)] [("Microsoft.Cdn", true)]
           ("Microsoft.Storage", false) (sample_world [])
           (SdkError "AuthorizationFailed")).
  - intros h x [<- | []]. reflexivity.
  - reflexivity.
Defined.

(** ** The other ways a replication run can end *)

Section RunFacts.

Variable azure : Azure.
Variables source destination : Subscription.
Variable strategy : string.

Lemma listing_run (sub : Subscription) (w : World) :
  get_subscription_registrations azure sub w
  = (match providers_list azure (trace w) (subscription_id sub) with
     | Ok ps =>
         Ok (fold_left
               (fun d p => Dict.setitem d (namespace p)
                             (String.eqb (registration_state p) "Registered"))
               ps Dict.empty)
     | Raise e => Raise e
     end,
     after w [ProvidersList (subscription_id sub)]).
Proof.
  unfold get_subscription_registrations, bind, call, ret.
  destruct (providers_list azure (trace w) (subscription_id sub)); reflexivity.
Qed.

(** The run from the prompt on, for a delta that is not empty. *)
Lemma replicate_from_prompt (w w1 w2 : World) (S D delta : Registrations) :
  get_subscription_registrations azure source w = (Ok S, w1) ->
  get_subscription_registrations azure destination w1 = (Ok D, w2) ->
  generate_registration_delta S D strategy = Ok delta ->
  Dict.is_empty delta = false ->
  replicate_registrations azure source destination strategy w
  = (confirm <- input confirm_prompt ;;
     if negb (String.eqb (str_strip (str_lower confirm)) "yes") then
       print "Aborting!"
     else
       apply_delta azure destination delta ;;
       print complete_line)%M
      (after w ([ProvidersList (subscription_id source);
                 ProvidersList (subscription_id destination);
                 Print (changes_header destination)]
                ++ report_events delta)%list).
Proof.
  intros Hs Hd He Hne.
  rewrite (replicate_after_evaluate _ _ _ _ _ _ _ _ _ _ Hs Hd He), Hne.
  rewrite (fetched_world _ _ _ _ _ _ _ _ Hs Hd).
  destruct delta as [|kv more]; [discriminate|].
  unfold bind at 1. rewrite print_run.
  unfold bind at 1. rewrite delta_report_nonempty.
  rewrite !after_after. reflexivity.
Qed.

End RunFacts.

(** X13: when the source cannot be listed, the run ends with the SDK's
    exception right there: the destination is not listed, nothing is
    printed and nothing is read. *)
Theorem replicate_source_listing_fails (azure : Azure)
    (source destination : Subscription) (strategy : string) (w : World) (e : exn) :
  providers_list azure (trace w) (subscription_id source) = Raise e ->
  replicate_registrations azure source destination strategy w
  = (Raise e, after w [ProvidersList (subscription_id source)]).
Proof.
  intros H. unfold replicate_registrations, bind at 1.
  rewrite listing_run, H. reflexivity.
Qed.

Lemma replicate_source_listing_fails_witness :
  replicate_registrations unreachable_azure sample_source sample_destination
    (value ECHO) (sample_world ["yes"])
  = (Raise (SdkError "ServiceUnavailable"),
     after (sample_world ["yes"]) [ProvidersList (subscription_id sample_source)]).
Proof.
  apply (replicate_source_listing_fails unreachable_azure sample_source
           sample_destination (value ECHO) (sample_world ["yes"])
           (SdkError "ServiceUnavailable")).
  reflexivity.
Defined.

(** X14: when the source is listed and the destination cannot be, the run
    ends with the SDK's exception after the two listing calls; the
    strategy is not looked at, nothing is printed and nothing is read. *)
Theorem replicate_destination_listing_fails (azure : Azure)
    (source destination : Subscription) (strategy : string) (w : World)
    (ps : list Provider) (e : exn) :
  providers_list azure (trace w) (subscription_id source) = Ok ps ->
  providers_list azure (trace w ++ [ProvidersList (subscription_id source)])%list
    (subscription_id destination) = Raise e ->
  replicate_registrations azure source destination strategy w
  = (Raise e, after w [ProvidersList (subscription_id source);
                       ProvidersList (subscription_id destination)]).
Proof.
  intros Hs Hd. unfold replicate_registrations, bind at 1.
  rewrite listing_run, Hs.
  unfold bind at 1. rewrite listing_run. cbn [after trace]. rewrite Hd.
  now rewrite after_after.
Qed.

Lemma replicate_destination_listing_fails_witness :
  replicate_registrations half_reachable_azure sample_source sample_destination
    "bogus" (sample_world ["yes"])
  = (Raise (SdkError "AuthorizationFailed"),
     after (sample_world ["yes"])
       [ProvidersList (subscription_id sample_source);
        ProvidersList (subscription_id sample_destination)]).
Proof.
  apply (replicate_destination_listing_fails half_reachable_azure sample_source
           sample_destination "bogus" (sample_world ["yes"])
           [ {| namespace := "Microsoft.Compute"; registration_state := "Registered" |};
             {| namespace := "Microsoft.Storage"; registration_state := "NotRegistered" |};
             {| namespace := "Microsoft.Cdn"; registration_state := "Registered" |} ]
           (SdkError "AuthorizationFailed"));
    reflexivity.
Defined.

(** X15: called with a strategy that is neither "echo" nor "sync", the
    orchestrator lists both subscriptions first and only then fails with
    [NotImplementedError]; nothing is printed and nothing is read. *)
Theorem replicate_unsupported_strategy (azure : Azure)
    (source destination : Subscription) (strategy : string) (w : World)
    (ps_source ps_destination : list Provider) :
  strategy <> value ECHO ->
  strategy <> value SYNC ->
  providers_list azure (trace w) (subscription_id source) = Ok ps_source ->
  providers_list azure (trace w ++ [ProvidersList (subscription_id source)])%list
    (subscription_id destination) = Ok ps_destination ->
  replicate_registrations azure source destination strategy w
  = (Raise (NotImplementedError
              ("Unrecognized replication strategy " ++ strategy ++ "!")),
     after w [ProvidersList (subscription_id source);
              ProvidersList (subscription_id destination)]).
Proof.
  intros Hne1 Hne2 Hs Hd. unfold replicate_registrations, bind at 1.
  rewrite listing_run, Hs.
  unfold bind at 1. rewrite listing_run. cbn [after trace]. rewrite Hd.
  unfold bind at 1, lift. rewrite generate_unrecognized by assumption.
  now rewrite after_after.
Qed.

Lemma replicate_unsupported_strategy_witness :
  replicate_registrations sample_azure sample_source sample_destination
    "ECHO" (sample_world ["yes"])
  = (Raise (NotImplementedError "Unrecognized replication strategy ECHO!"),
     after (sample_world ["yes"])
       [ProvidersList (subscription_id sample_source);
        ProvidersList (subscription_id sample_destination)]).
Proof.
  apply (replicate_unsupported_strategy sample_azure sample_source
           sample_destination "ECHO" (sample_world ["yes"])
           [ {| namespace := "Microsoft.Compute"; registration_state := "Registered" |};
             {| namespace := "Microsoft.Storage"; registration_state := "NotRegistered" |};
             {| namespace := "Microsoft.Cdn"; registration_state := "Registered" |} ]
           [ {| namespace := "Microsoft.Compute"; registration_state := "NotRegistered" |};
             {| namespace := "Microsoft.Storage"; registration_state := "NotRegistered" |} ]);
    try discriminate; reflexivity.
Defined.

(** X16: when standard input is at its end at the prompt, the run fails
    with [EOFError] after the report and the prompt; no register or
    unregister call is made. *)
Theorem replicate_end_of_input (azure : Azure) (source destination : Subscription)
    (strategy : string) (w w1 w2 : World) (S D delta : Registrations) :
  get_subscription_registrations azure source w = (Ok S, w1) ->
  get_subscription_registrations azure destination w1 = (Ok D, w2) ->
  generate_registration_delta S D strategy = Ok delta ->
  Dict.is_empty delta = false ->
  stdin w = [] ->
  replicate_registrations azure source destination strategy w
  = (Raise EOFError, after w (shown_events source destination delta))
  /\ existsb is_call (shown_events source destination delta) = false.
Proof.
  intros Hs Hd He Hne Hin. split.
  - rewrite (replicate_from_prompt _ _ _ _ _ _ _ _ _ _ Hs Hd He Hne).
    unfold bind, input. cbn [after stdin trace]. rewrite Hin.
    unfold shown_events, after. cbn [stdin trace]. rewrite Hin.
    now rewrite <- !app_assoc.
  - unfold shown_events. rewrite !existsb_app, report_events_no_call. reflexivity.
Qed.

Lemma replicate_end_of_input_witness :
  replicate_registrations sample_azure sample_source sample_destination
    (value ECHO) (sample_world [])
  = (Raise EOFError,
     after (sample_world [])
       (shown_events sample_source sample_destination [("Microsoft.Compute", true)]))
  /\ existsb is_call
       (shown_events sample_source sample_destination [("Microsoft.Compute", true)])
     = false.
Proof.
  apply (replicate_end_of_input sample_azure sample_source sample_destination
           (value ECHO) (sample_world [])
           (after (sample_world []) [ProvidersList (subscription_id sample_source)])
           (after (sample_world [])
              [ProvidersList (subscription_id sample_source);
               ProvidersList (subscription_id sample_destination)])
           scenario_S scenario_D [("Microsoft.Compute", true)]);
    reflexivity.
Defined.

(** X17: an accepted run in which every call succeeds applies the whole
    delta, one call per entry in the delta's order, and ends successfully
    with the completion line. *)
Theorem replicate_accepted_run (azure : Azure) (source destination : Subscription)
    (strategy : string) (w w1 w2 : World) (S D delta : Registrations)
    (line : string) (rest : list string) :
  get_subscription_registrations azure source w = (Ok S, w1) ->
  get_subscription_registrations azure destination w1 = (Ok D, w2) ->
  generate_registration_delta S D strategy = Ok delta ->
  Dict.is_empty delta = false ->
  stdin w = line :: rest ->
  str_strip (str_lower line) = "yes" ->
  (forall h x, In x delta -> call_answer azure h destination x = Ok tt) ->
  replicate_registrations azure source destination strategy w
  = (Ok tt,
     consumed (after w (shown_events source destination delta
                        ++ apply_events destination delta
                        ++ [Print complete_line])%list)).
Proof.
  intros Hs Hd He Hne Hin Hyes Hok.
  rewrite (replicate_from_prompt _ _ _ _ _ _ _ _ _ _ Hs Hd He Hne).
  unfold bind at 1. rewrite (input_run confirm_prompt _ line rest) by exact Hin.
  rewrite Hyes. cbn [String.eqb Ascii.eqb Bool.eqb negb].
  unfold bind. rewrite <- (app_nil_r delta) at 1.
  rewrite apply_delta_prefix by exact Hok.
  unfold apply_delta at 1. cbn [Dict.items for_each]. unfold ret.
  rewrite print_run. unfold shown_events, consumed, after. cbn [stdin trace].
  now rewrite <- !app_assoc.
Qed.

Lemma replicate_accepted_run_witness :
  replicate_registrations sample_azure sample_source sample_destination
    (value ECHO) (sample_world ["Yes"])
  = (Ok tt,
     consumed (after (sample_world ["Yes"])
       (shown_events sample_source sample_destination [("Microsoft.Compute", true)]
        ++ apply_events sample_destination [("Microsoft.Compute", true)]
        ++ [Print complete_line])%list)).
Proof.
  apply (replicate_accepted_run sample_azure sample_source sample_destination
           (value ECHO) (sample_world ["Yes"])
           (after (sample_world ["Yes"]) [ProvidersList (subscription_id sample_source)])
           (after (sample_world ["Yes"])
              [ProvidersList (subscription_id sample_source);
               ProvidersList (subscription_id sample_destination)])
           scenario_S scenario_D [("Microsoft.Compute", true)] "Yes" []);
    try reflexivity.
  intros h x _. unfold call_answer. simpl. destruct (snd x); reflexivity.
Defined.

(** X18: when a call fails during an accepted run, the run ends with that
    exception; the entries applied before it stay applied, the entries
    after it are not touched and the completion line is not printed. *)
Theorem replicate_partial_apply (azure : Azure) (source destination : Subscription)
    (strategy : string) (w w1 w2 : World) (S D before after_it : Registrations)
    (kv : string * bool) (line : string) (rest : list string) (e : exn) :
  get_subscription_registrations azure source w = (Ok S, w1) ->
  get_subscription_registrations azure destination w1 = (Ok D, w2) ->
  generate_registration_delta S D strategy = Ok (before ++ kv :: after_it)%list ->
  stdin w = line :: rest ->
  str_strip (str_lower line) = "yes" ->
  (forall h x, In x before -> call_answer azure h destination x = Ok tt) ->
  call_answer azure
    (trace w ++ shown_events source destination (before ++ kv :: after_it)
     ++ apply_events destination before)%list destination kv = Raise e ->
  replicate_registrations azure source destination strategy w
  = (Raise e,
     consumed (after w (shown_events source destination (before ++ kv :: after_it)
                        ++ apply_events destination before
                        ++ [call_event destination kv])%list)).
Proof.
  intros Hs Hd He Hin Hyes Hok Hfail.
  assert (Hne : Dict.is_empty (before ++ kv :: after_it)%list = false)
    by (destruct before; reflexivity).
  rewrite (replicate_from_prompt _ _ _ _ _ _ _ _ _ _ Hs Hd He Hne).
  unfold bind at 1. rewrite (input_run confirm_prompt _ line rest) by exact Hin.
  rewrite Hyes. cbn [String.eqb Ascii.eqb Bool.eqb negb].
  rewrite after_after, <- app_assoc.
  change ([ProvidersList (subscription_id source);
           ProvidersList (subscription_id destination);
           Print (changes_header destination)]
          ++ report_events (before ++ kv :: after_it) ++ [Input confirm_prompt])%list
    with (shown_events source destination (before ++ kv :: after_it)%list).
  set (shown := shown_events source destination (before ++ kv :: after_it)%list) in *.
  unfold bind.
  rewrite apply_delta_prefix by exact Hok.
  rewrite apply_delta_cons.
  assert (HW : trace (after (consumed (after w shown)) (apply_events destination before))
               = (trace w ++ shown ++ apply_events destination before)%list)
    by (unfold consumed, after; cbn [trace]; now rewrite <- app_assoc).
  rewrite HW, Hfail.
  unfold consumed, after. cbn [stdin trace].
  now rewrite <- !app_assoc.
Qed.

Lemma replicate_partial_apply_witness :
  replicate_registrations refusing_azure sample_source sample_destination
    (value SYNC) (sample_world ["yes"])
  = (Raise (SdkError "AuthorizationFailed"),
     consumed (after (sample_world ["yes"])
       (shown_events sample_source sample_destination
          ([("Microsoft.Compute", true)]
           ++ ("Microsoft.Storage", false) :: [("Microsoft.Cdn", true)])
        ++ apply_events sample_destination [("Microsoft.Compute", true)]
        ++ [call_event sample_destination ("Microsoft.Storage", false)])%list)).
Proof.
  apply (replicate_partial_apply refusing_azure sample_source sample_destination
           (value SYNC) (sample_world ["yes"])
           (after (sample_world ["yes"]) [ProvidersList (subscription_id sample_source)])
           (after (sample_world ["yes"])
              [ProvidersList (subscription_id sample_source);
               ProvidersList (subscription_id sample_destination)])
           scenario_S
           [("Microsoft.Compute", false); ("Microsoft.Storage", true);
            ("Microsoft.Cdn", false)]
           [("Microsoft.Compute", true)] [("Microsoft.Cdn", true)]
           ("Microsoft.Storage", false) "yes" [] (SdkError "AuthorizationFailed"));
    try reflexivity.
  intros h x [<- | []]. reflexivity.
Defined.

(** ** What a run never does *)

Section EmitsFacts.

Variable P : event -> bool.

Lemma emits_ret {A : Type} (a : A) : emits P (ret a).
Proof. intros w. exists []. simpl. now rewrite app_nil_r. Qed.

Lemma emits_lift {A : Type} (r : result A) : emits P (lift r).
Proof. intros w. exists []. simpl. now rewrite app_nil_r. Qed.

Lemma emits_bind {A B : Type} (m : M A) (k : A -> M B) :
  emits P m -> (forall a, emits P (k a)) -> emits P (bind m k).
Proof.
  intros Hm Hk w. unfold bind.
  destruct (Hm w) as (evs1 & Ht1 & HP1).
  destruct (m w) as [[a|e] w1]; simpl in Ht1.
  - destruct (Hk a w1) as (evs2 & Ht2 & HP2).
    exists (evs1 ++ evs2)%list. split.
    + now rewrite Ht2, Ht1, app_assoc.
    + now rewrite forallb_app, HP1, HP2.
  - exists evs1. auto.
Qed.

Lemma emits_call {A : Type} (e : event) (answer : list event -> result A) :
  P e = true -> emits P (call e answer).
Proof. intros He w. exists [e]. simpl. now rewrite He. Qed.

Lemma emits_print (line : string) : P (Print line) = true -> emits P (print line).
Proof. intros He w. exists [Print line]. simpl. now rewrite He. Qed.

Lemma emits_input (prompt : string) : P (Input prompt) = true -> emits P (input prompt).
Proof.
  intros He w. exists [Input prompt]. unfold input.
  destruct (stdin w); simpl; now rewrite He.
Qed.

Lemma emits_for_each {A : Type} (l : list A) (body : A -> M unit) :
  (forall x, emits P (body x)) -> emits P (for_each l body).
Proof.
  intros Hbody. induction l as [|x rest IH]; cbn [for_each].
  - apply emits_ret.
  - apply emits_bind; auto.
Qed.

End EmitsFacts.

Lemma replicate_emits (P : event -> bool) (azure : Azure)
    (source destination : Subscription) (strategy : string) :
  (forall line, P (Print line) = true) ->
  (forall prompt, P (Input prompt) = true) ->
  (forall id, P (ProvidersList id) = true) ->
  (forall ns, P (ProvidersRegister (subscription_id destination) ns) = true) ->
  (forall ns, P (ProvidersUnregister (subscription_id destination) ns) = true) ->
  emits P (replicate_registrations azure source destination strategy).
Proof.
  intros Hprint Hinput Hlist Hreg Hunreg.
  assert (Hfetch : forall sub, emits P (get_subscription_registrations azure sub)).
  { intros sub. apply emits_bind; [apply emits_call, Hlist | intros; apply emits_ret]. }
  unfold replicate_registrations.
  apply emits_bind; [apply Hfetch | intros S].
  apply emits_bind; [apply Hfetch | intros D].
  apply emits_bind; [apply emits_lift | intros delta].
  destruct (Dict.is_empty delta); [apply emits_print, Hprint|].
  apply emits_bind; [apply emits_print, Hprint | intros _].
  apply emits_bind.
  { apply emits_bind; [apply emits_lift | intros width].
    apply emits_for_each. intros x. apply emits_print, Hprint. }
  intros _. apply emits_bind; [apply emits_input, Hinput | intros confirm].
  destruct (negb (String.eqb (str_strip (str_lower confirm)) "yes"));
    [apply emits_print, Hprint|].
  apply emits_bind; [|intros; apply emits_print, Hprint].
  apply emits_for_each. intros kv. unfold set_subscription_registration.
  destruct (snd kv); (apply emits_bind; [apply emits_call | intros; apply emits_print]);
    auto.
Qed.

(** X19: whatever the API answers and whatever is typed, every register
    or unregister call of a run carries the identifier of the destination
    subscription. *)
Theorem replicate_touches_destination_only (azure : Azure)
    (source destination : Subscription) (strategy : string) (w : World) :
  exists evs,
    trace (snd (replicate_registrations azure source destination strategy w))
    = (trace w ++ evs)%list
    /\ forall id ns,
         In (ProvidersRegister id ns) evs \/ In (ProvidersUnregister id ns) evs ->
         id = subscription_id destination.
Proof.
  destruct (replicate_emits (targets (subscription_id destination)) azure
              source destination strategy) with (w := w) as (evs & Ht & HP);
    try reflexivity; try (intros; simpl; apply String.eqb_refl).
  exists evs. split; [exact Ht|].
  rewrite forallb_forall in HP.
  intros id ns [Hin | Hin]; apply HP in Hin; simpl in Hin;
    now apply String.eqb_eq in Hin.
Qed.

Lemma existsb_is_call_false (evs : list event) :
  forallb (fun e => negb (is_call e)) evs = true -> existsb is_call evs = false.
Proof.
  induction evs as [|e rest IH]; simpl; auto.
  intros H. apply andb_true_iff in H. destruct H as [He Hr].
  apply negb_true_iff in He. now rewrite He, IH.
Qed.

Section AcceptanceFacts.

Variable azure : Azure.

(** Without an acceptance on standard input a run makes no call. *)
Lemma replicate_quiet (source destination : Subscription) (strategy : string)
    (w : World) :
  next_line_accepted w = false ->
  exists evs,
    trace (snd (replicate_registrations azure source destination strategy w))
    = (trace w ++ evs)%list
    /\ existsb is_call evs = false.
Proof.
  intros Hno. unfold replicate_registrations.
  unfold bind at 1. rewrite listing_run.
  destruct (providers_list azure (trace w) (subscription_id source)) as [ps1|e].
  2:{ eexists. split; reflexivity. }
  unfold bind at 1. rewrite listing_run.
  destruct (providers_list azure _ (subscription_id destination)) as [ps2|e].
  2:{ eexists. cbn [snd after trace]. rewrite <- app_assoc. split; reflexivity. }
  unfold bind at 1, lift.
  destruct (generate_registration_delta _ _ strategy) as [delta|e].
  2:{ eexists. cbn [snd after trace]. rewrite <- app_assoc. split; reflexivity. }
  destruct delta as [|kv more]; cbn [Dict.is_empty].
  { rewrite print_run. eexists. cbn [snd after trace].
    rewrite <- !app_assoc. split; reflexivity. }
  unfold bind at 1. rewrite print_run.
  unfold bind at 1. rewrite delta_report_nonempty.
  rewrite !after_after.
  unfold bind at 1, input. cbn [after stdin trace].
  unfold next_line_accepted, accepted in Hno.
  destruct (stdin w) as [|line rest].
  { eexists. cbn [snd trace]. rewrite <- !app_assoc. split; [reflexivity|].
    cbn [app existsb is_call orb].
    rewrite existsb_app, report_events_no_call. reflexivity. }
  rewrite Hno. cbn [negb]. rewrite print_run.
  eexists. cbn [snd after trace]. rewrite <- !app_assoc. split; [reflexivity|].
  cbn [app existsb is_call orb].
  rewrite existsb_app, report_events_no_call. reflexivity.
Qed.

End AcceptanceFacts.

(** X20: a run makes no register or unregister call unless the next line
    of standard input, lower-cased and stripped, is "yes"; this holds on
    every path, the failing ones included. *)
Theorem replicate_needs_acceptance (azure : Azure)
    (source destination : Subscription) (strategy : string) (w : World) :
  match stdin w with
  | [] => True
  | line :: _ => str_strip (str_lower line) <> "yes"
  end ->
  exists evs,
    trace (snd (replicate_registrations azure source destination strategy w))
    = (trace w ++ evs)%list
    /\ existsb is_call evs = false.
Proof.
  intros H. apply replicate_quiet.
  unfold next_line_accepted, accepted. destruct (stdin w); auto.
  now apply String.eqb_neq.
Qed.

Lemma replicate_needs_acceptance_witness :
  exists evs,
    trace (snd (replicate_registrations sample_azure sample_source
                  sample_destination (value SYNC) (sample_world ["yes please"])))
    = (trace (sample_world ["yes please"]) ++ evs)%list
    /\ existsb is_call evs = false.
Proof.
  apply (replicate_needs_acceptance sample_azure sample_source sample_destination
           (value SYNC) (sample_world ["yes please"])).
  simpl. discriminate.
Defined.

(** X21: the same for the whole program: whatever the arguments and the
    API's answers, [main] makes no register or unregister call unless the
    next line of standard input, lower-cased and stripped, is "yes". *)
Theorem main_needs_acceptance (azure : Azure) (src dst : string)
    (strategy_name : option string) (w : World) :
  match stdin w with
  | [] => True
  | line :: _ => str_strip (str_lower line) <> "yes"
  end ->
  exists evs,
    trace (snd (main azure src dst strategy_name w)) = (trace w ++ evs)%list
    /\ existsb is_call evs = false.
Proof.
  intros H.
  assert (Hno : next_line_accepted w = false).
  { unfold next_line_accepted, accepted. destruct (stdin w); auto.
    now apply String.eqb_neq. }
  assert (Hstop : forall (e : exn),
             exists evs, trace (snd (@raise unit e w)) = (trace w ++ evs)%list
                         /\ existsb is_call evs = false).
  { intros e. exists []. simpl. now rewrite app_nil_r. }
  unfold main.
  destruct (String.eqb src dst); [apply Hstop|].
  destruct (negb (subscription_id_valid src)); [apply Hstop|].
  destruct (negb (subscription_id_valid dst)); [apply Hstop|].
  unfold bind at 1, lift.
  destruct (match strategy_name with
            | Some name => ReplicationStrategy_of name
            | None => Ok DEFAULT_REPLICATION_STRATEGY
            end) as [strategy|e]; [|apply Hstop].
  unfold bind at 1, get_subscription at 1, call.
  destruct (subscriptions_get azure (trace w) src) as [source|e].
  2:{ eexists. split; reflexivity. }
  unfold bind at 1, get_subscription at 1, call. cbn [trace stdin].
  destruct (subscriptions_get azure _ dst) as [destination|e].
  2:{ eexists. cbn [snd trace]. rewrite <- app_assoc. split; reflexivity. }
  match goal with
  | |- context [replicate_registrations _ _ _ _ ?W] =>
      destruct (replicate_quiet azure source destination (value strategy) W)
        as (evs & Ht & Hc); [exact Hno|]
  end.
  eexists. rewrite Ht. cbn [trace]. rewrite <- !app_assoc. split; [reflexivity|].
  cbn [app existsb is_call]. exact Hc.
Qed.

Lemma main_needs_acceptance_witness :
  exists evs,
    trace (snd (main sample_azure (subscription_id sample_source)
                  (subscription_id sample_destination) (Some "sync")
                  (sample_world [""])))
    = (trace (sample_world [""]) ++ evs)%list
    /\ existsb is_call evs = false.
Proof.
  apply (main_needs_acceptance sample_azure (subscription_id sample_source)
           (subscription_id sample_destination) (Some "sync") (sample_world [""])).
  simpl. discriminate.
Defined.

(** Whitespace outside ASCII is stripped like any other: an answer that
    ends in a no-break space, or starts with a next-line control, is an
    acceptance, and the run applies the delta. *)
Example accepted_with_latin1_whitespace :
  str_strip (str_lower (nel ++ "YES" ++ nbsp)) = "yes"
  /\ existsb is_call
       (trace (snd (replicate_registrations sample_azure sample_source
                      sample_destination (value ECHO)
                      (sample_world ["yes" ++ nbsp]))))
     = true.
Proof. split; vm_compute; reflexivity. Qed.

(** ** Entry validation and the lookups *)

(** X22: an argument error is found before anything happens: [main]
    raises [RuntimeError] and has no effect at all.  Equal identifiers are
    reported first, even when they are malformed; then a malformed source;
    then a malformed destination. *)
Theorem main_rejects_without_effect (azure : Azure) (src dst : string)
    (strategy_name : option string) (w : World) :
  src = dst \/ subscription_id_valid src = false \/ subscription_id_valid dst = false ->
  main azure src dst strategy_name w
  = (Raise (RuntimeError
              (if String.eqb src dst then
                 "Subscription ID for source and destination must not match!"
               else if subscription_id_valid src then
                 "Destination subscription ID doesn't appear to be a valid UUID."
               else
                 "Source subscription ID doesn't appear to be a valid UUID.")),
     w).
Proof.
  intros H. unfold main.
  destruct (String.eqb_spec src dst) as [Heq|Hne]; [reflexivity|].
  destruct (subscription_id_valid src); cbn [negb]; [|reflexivity].
  destruct (subscription_id_valid dst); cbn [negb]; [|reflexivity].
  destruct H as [H | [H | H]]; [contradiction | discriminate | discriminate].
Qed.

Lemma main_rejects_without_effect_witness :
  main sample_azure "not-a-guid" "not-a-guid" (Some "bogus") (sample_world ["yes"])
  = (Raise (RuntimeError
              (if String.eqb "not-a-guid" "not-a-guid" then
                 "Subscription ID for source and destination must not match!"
               else if subscription_id_valid "not-a-guid" then
                 "Destination subscription ID doesn't appear to be a valid UUID."
               else
                 "Source subscription ID doesn't appear to be a valid UUID.")),
     sample_world ["yes"]).
Proof.
  apply (main_rejects_without_effect sample_azure "not-a-guid" "not-a-guid"
           (Some "bogus") (sample_world ["yes"])).
  left. reflexivity.
Defined.

(** X23: when the source subscription cannot be looked up, [main] ends
    with the SDK's exception after that one call: the destination is not
    looked up and no subscription is listed. *)
Theorem main_source_lookup_fails (azure : Azure) (src dst : string)
    (strategy_name : option string) (strategy : ReplicationStrategy)
    (w : World) (e : exn) :
  src <> dst ->
  subscription_id_valid src = true ->
  subscription_id_valid dst = true ->
  match strategy_name with
  | None => Ok DEFAULT_REPLICATION_STRATEGY
  | Some name => ReplicationStrategy_of name
  end = Ok strategy ->
  subscriptions_get azure (trace w) src = Raise e ->
  main azure src dst strategy_name w = (Raise e, after w [SubscriptionsGet src]).
Proof.
  intros Hne Hs Hd Hstrat Hget.
  rewrite main_validated by assumption.
  unfold bind at 1, lift. rewrite Hstrat.
  unfold bind at 1, get_subscription at 1, call. rewrite Hget. reflexivity.
Qed.

Lemma main_source_lookup_fails_witness :
  main sample_azure version1_id (subscription_id sample_destination) None
    (sample_world [])
  = (Raise (SdkError "SubscriptionNotFound"),
     after (sample_world []) [SubscriptionsGet version1_id]).
Proof.
  apply (main_source_lookup_fails sample_azure version1_id
           (subscription_id sample_destination) None ECHO (sample_world [])
           (SdkError "SubscriptionNotFound"));
    try reflexivity.
  discriminate.
Defined.

(** X24: with valid, distinct identifiers, a strategy that resolves and
    two successful lookups, [main] is the replication run on the two
    subscription objects the lookups returned, under the resolved
    strategy, [ECHO] when none is named. *)
Theorem main_runs_replication (azure : Azure) (src dst : string)
    (strategy_name : option string) (w : World)
    (source destination : Subscription) :
  src <> dst ->
  subscription_id_valid src = true ->
  subscription_id_valid dst = true ->
  match strategy_name with
  | None => True
  | Some name => name = "echo" \/ name = "sync"
  end ->
  subscriptions_get azure (trace w) src = Ok source ->
  subscriptions_get azure (trace w ++ [SubscriptionsGet src])%list dst
  = Ok destination ->
  main azure src dst strategy_name w
  = replicate_registrations azure source destination
      (match strategy_name with None => "echo" | Some name => name end)
      (after w [SubscriptionsGet src; SubscriptionsGet dst]).
Proof.
  intros Hne Hs Hd Hname Hgs Hgd.
  rewrite main_validated by assumption.
  assert (Hstrat :
    exists strategy,
      match strategy_name with
      | None => Ok DEFAULT_REPLICATION_STRATEGY
      | Some name => ReplicationStrategy_of name
      end = Ok strategy
      /\ value strategy = match strategy_name with None => "echo" | Some name => name end).
  { destruct strategy_name as [name|].
    - destruct Hname as [-> | ->]; [exists ECHO | exists SYNC]; split; reflexivity.
    - exists ECHO. split; reflexivity. }
  destruct Hstrat as (strategy & -> & <-).
  unfold bind at 1, lift.
  unfold bind at 1, get_subscription at 1, call. rewrite Hgs.
  unfold bind at 1, get_subscription at 1, call. cbn [trace stdin]. rewrite Hgd.
  unfold after. cbn [trace stdin]. now rewrite <- app_assoc.
Qed.

Lemma main_runs_replication_witness :
  main sample_azure (subscription_id sample_source)
    (subscription_id sample_destination) None (sample_world ["no"])
  = replicate_registrations sample_azure sample_source sample_destination "echo"
      (after (sample_world ["no"])
         [SubscriptionsGet (subscription_id sample_source);
          SubscriptionsGet (subscription_id sample_destination)]).
Proof.
  apply (main_runs_replication sample_azure (subscription_id sample_source)
           (subscription_id sample_destination) None (sample_world ["no"])
           sample_source sample_destination);
    try reflexivity; try exact I.
  discriminate.
Defined.

(** ** The identifier check *)

Section LengthFacts.

Lemma replace_from_shorter old skip s :
  String.length (replace_from old "" skip s) <= String.length s.
Proof.
  revert skip. induction s as [|c r IH]; intros skip; [simpl; lia|].
  cbn [replace_from]. destruct skip as [|n].
  - destruct (String.prefix old (String c r)).
    + cbn [String.append String.length]. specialize (IH (String.length old - 1)). lia.
    + cbn [String.length]. specialize (IH 0). lia.
  - cbn [String.length]. specialize (IH n). lia.
Qed.

Lemma lstrip_by_shorter p s : String.length (lstrip_by p s) <= String.length s.
Proof.
  induction s as [|c r IH]; cbn [lstrip_by]; [lia|].
  destruct (p c); cbn [String.length]; lia.
Qed.

Lemma rstrip_by_shorter p s : String.length (rstrip_by p s) <= String.length s.
Proof.
  induction s as [|c r IH]; cbn [rstrip_by]; [lia|].
  destruct (rstrip_by p r) as [|c' r'] eqn:E.
  - destruct (p c); cbn [String.length]; lia.
  - cbn [String.length] in *. lia.
Qed.

End LengthFacts.

(** X25: the check rejects every text of fewer than 32 characters, the
    empty one included. *)
Theorem short_identifier_rejected (s : string) :
  String.length s < 32 -> subscription_id_valid s = false.
Proof.
  intros Hlen. unfold subscription_id_valid, UUID.
  set (h := str_replace "-" ""
              (str_strip_chars "{}"
                 (str_replace "uuid:" "" (str_replace "urn:" "" s)))).
  assert (Hh : String.length h <= String.length s).
  { unfold h, str_replace, str_strip_chars, strip_by.
    eapply Nat.le_trans; [apply replace_from_shorter|].
    eapply Nat.le_trans; [apply rstrip_by_shorter|].
    eapply Nat.le_trans; [apply lstrip_by_shorter|].
    eapply Nat.le_trans; [apply replace_from_shorter|].
    apply replace_from_shorter. }
  destruct (Nat.eqb_spec (String.length h) 32) as [E|_]; [lia | reflexivity].
Qed.

Lemma short_identifier_rejected_witness : subscription_id_valid "not-a-guid" = false.
Proof. apply (short_identifier_rejected "not-a-guid"). simpl. lia. Defined.

(** X26: the check accepts every text made of exactly 32 hexadecimal
    digits with hyphens anywhere among them: neither the places of the
    hyphens nor the version and variant digits are looked at. *)
Theorem digits_and_hyphens_accepted (s : string) :
  all_chars hex_or_hyphen s = true ->
  count_chars is_hex s = 32 ->
  subscription_id_valid s = true.
Proof. apply hex_text_accepted. Qed.

Lemma digits_and_hyphens_accepted_witness :
  subscription_id_valid "-0123456789abcdef--0123456789ABCDEF-" = true.
Proof.
  apply (digits_and_hyphens_accepted "-0123456789abcdef--0123456789ABCDEF-");
    reflexivity.
Defined.

(** The integer parser takes the no-break space and the next-line
    control for whitespace, so the check passes a text of 31 digits
    beside one of them; a separator such as FS (28) is not whitespace to
    it. *)
Example identifier_with_latin1_whitespace :
  subscription_id_valid (nbsp ++ "0000000000000000000000000000000") = true
  /\ subscription_id_valid ("0000000000000000000000000000000" ++ nel) = true
  /\ subscription_id_valid
       (String (ascii_of_nat 28) "0000000000000000000000000000000") = false.
Proof. repeat split; vm_compute; reflexivity. Qed.

(** ** The command line *)

(** [repr] keeps a printable character above 127 and escapes the
    no-break space. *)
Example repr_latin1 :
  str_repr (String (ascii_of_nat 233) "cho")
  = String "'"%char (String (ascii_of_nat 233) "cho'")
  /\ str_repr nbsp = "'\xa0'".
Proof. split; vm_compute; reflexivity. Qed.

(** X27: started with any number of arguments other than two or three,
    the script prints the usage text and exits with code -1; no SDK call
    is made and nothing is read. *)
Theorem script_usage_error (azure : Azure) (argv : list string) (w : World) :
  List.length argv <> 3 ->
  List.length argv <> 4 ->
  script azure argv w = (Exited (-1), after w [Print usage_text]).
Proof.
  intros H3 H4. unfold script.
  destruct argv as [|p [|a [|b [|c [|d rest]]]]]; simpl in *;
    try reflexivity; congruence.
Qed.

Lemma script_usage_error_witness :
  script sample_azure ["sync.py"; subscription_id sample_source] (sample_world ["yes"])
  = (Exited (-1), after (sample_world ["yes"]) [Print usage_text]).
Proof.
  apply (script_usage_error sample_azure ["sync.py"; subscription_id sample_source]
           (sample_world ["yes"]));
    simpl; discriminate.
Defined.

(** X28: started with two or three arguments, the script catches the
    exception [main] ends with, whenever it is one of the classes of [exn]
    (the program's own errors, the end of input at the prompt, or an SDK
    error: all of them [Exception]s): it prints one line, "Failure: "
    followed by the exception's text, and exits with code -2.  This is
    also how an unknown strategy name or a malformed identifier ends. *)
Theorem script_reports_failure (azure : Azure) (prog a b : string)
    (extra : list string) (w w' : World) (e : exn) :
  List.length extra <= 1 ->
  main azure a b (hd_error extra) w = (Raise e, w') ->
  script azure (prog :: a :: b :: extra) w
  = (Exited (-2), after w' [Print ("Failure: " ++ exn_str e)]).
Proof.
  intros Hlen Hmain. unfold script.
  destruct extra as [|c [|d rest]]; simpl in *; [| |lia];
    rewrite Hmain; reflexivity.
Qed.

Lemma script_reports_failure_witness :
  script sample_azure
    ["sync.py"; subscription_id sample_source; subscription_id sample_destination;
     "it's"] (sample_world ["yes"])
  = (Exited (-2),
     after (sample_world ["yes"])
       [Print ("Failure: " ++ dq ++ "it's" ++ dq ++ " is not a valid ReplicationStrategy")]).
Proof.
  apply (script_reports_failure sample_azure "sync.py"
           (subscription_id sample_source) (subscription_id sample_destination)
           ["it's"] (sample_world ["yes"]) (sample_world ["yes"])
           (EnumValueError "it's" "ReplicationStrategy")).
  - simpl. lia.
  - reflexivity.
Defined.
